(** * Christa's Closet client script: a shallow embedding of [static/script.js]

    The script is glue over host objects: [Date], [setTimeout],
    [Notification], [localStorage], the DOM, [navigator.share] and
    [navigator.clipboard].  The embedding has three layers:

    - the built-ins the script calls ([String.prototype.split], [parseInt],
      [String.prototype.trim], the [Date] time-value arithmetic), written
      after the abstract operations of ECMA-262;
    - the script's own functions ([scheduleNotificationAt], [setupNotifications],
      [setupShare]), written line by line over those built-ins, with the host
      effects collected in a trace;
    - the properties of the script.

    Numbers.  Every number the script handles is an integer or NaN: the results
    of [parseInt], time values in milliseconds, and their differences.  They
    are modelled by [Number] below, an integer of [Z] or [NaN]; the double
    arithmetic of the source is exact on integers below 2^53.

    Strings.  A JavaScript string is a sequence of code units; the embedding
    uses [string], whose characters stand for the code units 0..255. *)

From Stdlib Require Import ZArith Lia Bool List String Ascii.
Import ListNotations.
Local Open Scope Z_scope.

(** ** Numbers *)

Inductive Number : Type :=
| NaN : Number
| Num (z : Z) : Number.

(** ** ECMA-262, section "Time Values and Time Range" and following *)

Module DateOps.

Definition msPerDay : Z := 86400000.
Definition msPerHour : Z := 3600000.
Definition msPerMinute : Z := 60000.
Definition msPerSecond : Z := 1000.
Definition HoursPerDay : Z := 24.
Definition MinutesPerHour : Z := 60.
Definition SecondsPerMinute : Z := 60.

(** The largest magnitude of a time value: 8.64e15 ms. *)
Definition maxTimeValue : Z := 8640000000000000.

Definition Day (t : Z) : Z := t / msPerDay.
Definition TimeWithinDay (t : Z) : Z := t mod msPerDay.

Definition DaysInYear (y : Z) : Z :=
  if negb (y mod 4 =? 0) then 365
  else if negb (y mod 100 =? 0) then 366
  else if negb (y mod 400 =? 0) then 365
  else 366.

Definition DayFromYear (y : Z) : Z :=
  365 * (y - 1970) + (y - 1969) / 4 - (y - 1901) / 100 + (y - 1601) / 400.

Definition TimeFromYear (y : Z) : Z := msPerDay * DayFromYear y.

(** [YearFromTime t] is the largest [y] with [TimeFromYear y <= t].  It is
    computed from the mean length of a Gregorian year (146097 days in 400
    years), which is off by at most one year; see [YearFromTime_spec]. *)
Definition YearFromTime (t : Z) : Z :=
  let d := Day t in
  let y := 1970 + (400 * d) / 146097 in
  if DayFromYear (y + 1) <=? d then y + 1
  else if DayFromYear y <=? d then y
  else y - 1.

Definition InLeapYear (t : Z) : Z :=
  if DaysInYear (YearFromTime t) =? 366 then 1 else 0.

Definition DayWithinYear (t : Z) : Z := Day t - DayFromYear (YearFromTime t).

Definition MonthFromTime (t : Z) : Z :=
  let d := DayWithinYear t in
  let l := InLeapYear t in
  if d <? 31 then 0
  else if d <? 59 + l then 1
  else if d <? 90 + l then 2
  else if d <? 120 + l then 3
  else if d <? 151 + l then 4
  else if d <? 181 + l then 5
  else if d <? 212 + l then 6
  else if d <? 243 + l then 7
  else if d <? 273 + l then 8
  else if d <? 304 + l then 9
  else if d <? 334 + l then 10
  else 11.

Definition DateFromTime (t : Z) : Z :=
  let d := DayWithinYear t in
  let l := InLeapYear t in
  match MonthFromTime t with
  | 0 => d + 1
  | 1 => d - 30
  | 2 => d - 58 - l
  | 3 => d - 89 - l
  | 4 => d - 119 - l
  | 5 => d - 150 - l
  | 6 => d - 180 - l
  | 7 => d - 211 - l
  | 8 => d - 242 - l
  | 9 => d - 272 - l
  | 10 => d - 303 - l
  | _ => d - 333 - l
  end.

Definition HourFromTime (t : Z) : Z := (t / msPerHour) mod HoursPerDay.
Definition MinFromTime (t : Z) : Z := (t / msPerMinute) mod MinutesPerHour.
Definition SecFromTime (t : Z) : Z := (t / msPerSecond) mod SecondsPerMinute.
Definition msFromTime (t : Z) : Z := t mod msPerSecond.

(** [MakeTime]: NaN as soon as one argument is not finite. *)
Definition MakeTime (hour min sec ms : Number) : Number :=
  match hour, min, sec, ms with
  | Num h, Num m, Num s, Num milli =>
      Num (h * msPerHour + m * msPerMinute + s * msPerSecond + milli)
  | _, _, _, _ => NaN
  end.

(** Number of days from the start of a year to the start of its month [mn]
    (0..11), [l] being 1 in a leap year. *)
Definition DaysBeforeMonth (mn l : Z) : Z :=
  match mn with
  | 0 => 0
  | 1 => 31
  | 2 => 59 + l
  | 3 => 90 + l
  | 4 => 120 + l
  | 5 => 151 + l
  | 6 => 181 + l
  | 7 => 212 + l
  | 8 => 243 + l
  | 9 => 273 + l
  | 10 => 304 + l
  | _ => 334 + l
  end.

(** [MakeDay]: the day number of the first of month [month] of [year], plus
    [date - 1].  The month may lie outside 0..11 and then carries into the
    year. *)
Definition MakeDay (year month date : Number) : Number :=
  match year, month, date with
  | Num y, Num m, Num dt =>
      let ym := y + m / 12 in
      let mn := m mod 12 in
      let l := if DaysInYear ym =? 366 then 1 else 0 in
      Num (DayFromYear ym + DaysBeforeMonth mn l + dt - 1)
  | _, _, _ => NaN
  end.

Definition MakeDate (day time : Number) : Number :=
  match day, time with
  | Num d, Num tm => Num (d * msPerDay + tm)
  | _, _ => NaN
  end.

Definition TimeClip (time : Number) : Number :=
  match time with
  | NaN => NaN
  | Num t => if Z.abs t <=? maxTimeValue then Num t else NaN
  end.

End DateOps.

(** ** Local time

    [LocalTZA t isUTC] of ECMA-262 is the offset of the local time zone in
    milliseconds: at the instant [t] when [isUTC] is [true], at the local time
    [t] when it is [false].  It belongs to the host, so it is a parameter of
    everything that reads or writes local fields of a [Date]. *)

Definition TimeZone : Type := Z -> bool -> Z.

Module DateObject.
Import DateOps.

Definition LocalTime (LocalTZA : TimeZone) (t : Z) : Z := t + LocalTZA t true.
Definition UTC (LocalTZA : TimeZone) (t : Z) : Z := t - LocalTZA t false.

Definition UTC_of (LocalTZA : TimeZone) (t : Number) : Number :=
  match t with
  | NaN => NaN
  | Num l => Num (UTC LocalTZA l)
  end.

(** A [Date] object is its time value, a [Number]; a method that mutates the
    object returns the new time value. *)

(** [Date.prototype.setHours(hour, min, sec, ms)] *)
Definition setHours (LocalTZA : TimeZone) (tv hour min sec ms : Number) : Number :=
  match tv with
  | NaN => NaN
  | Num t0 =>
      let t := LocalTime LocalTZA t0 in
      let date := MakeDate (Num (Day t)) (MakeTime hour min sec ms) in
      TimeClip (UTC_of LocalTZA date)
  end.

(** [Date.prototype.getDate()] *)
Definition getDate (LocalTZA : TimeZone) (tv : Number) : Number :=
  match tv with
  | NaN => NaN
  | Num t => Num (DateFromTime (LocalTime LocalTZA t))
  end.

(** [Date.prototype.setDate(date)] *)
Definition setDate (LocalTZA : TimeZone) (tv dt : Number) : Number :=
  match tv with
  | NaN => NaN
  | Num t0 =>
      let t := LocalTime LocalTZA t0 in
      let newDate :=
        MakeDate (MakeDay (Num (YearFromTime t)) (Num (MonthFromTime t)) dt)
                 (Num (TimeWithinDay t)) in
      TimeClip (UTC_of LocalTZA newDate)
  end.

(** [Date.prototype.getTime()] and [valueOf()] *)
Definition getTime (tv : Number) : Number := tv.

End DateObject.

(** ** Operators on numbers *)

Definition add (a b : Number) : Number :=
  match a, b with
  | Num x, Num y => Num (x + y)
  | _, _ => NaN
  end.

Definition sub (a b : Number) : Number :=
  match a, b with
  | Num x, Num y => Num (x - y)
  | _, _ => NaN
  end.

(** [a <= b]: false as soon as one side is NaN. *)
Definition le (a b : Number) : bool :=
  match a, b with
  | Num x, Num y => x <=? y
  | _, _ => false
  end.

(** ** Strings *)

Module JsString.

Definition code (c : ascii) : Z := Z.of_N (N_of_ascii c).

(** White space and line terminators among the code units 0..255: TAB, LF,
    VT, FF, CR, SP and NBSP. *)
Definition isWhiteSpace (c : ascii) : bool :=
  let n := code c in
  ((9 <=? n) && (n <=? 13)) || (n =? 32) || (n =? 160).

Fixpoint trimStart (s : string) : string :=
  match s with
  | EmptyString => EmptyString
  | String c r => if isWhiteSpace c then trimStart r else s
  end.

Fixpoint trimEnd (s : string) : string :=
  match s with
  | EmptyString => EmptyString
  | String c r =>
      match trimEnd r with
      | EmptyString => if isWhiteSpace c then EmptyString else String c EmptyString
      | r' => String c r'
      end
  end.

(** [String.prototype.trim()] *)
Definition trim (s : string) : string := trimEnd (trimStart s).

(** [String.prototype.split(separator)] for a separator of one code unit: the
    substrings between the occurrences of the separator, one more than there
    are occurrences. *)
Fixpoint split (sep : ascii) (s : string) : list string :=
  match s with
  | EmptyString => [EmptyString]
  | String c r =>
      if Ascii.eqb c sep then EmptyString :: split sep r
      else match split sep r with
           | [] => [String c EmptyString]
           | x :: xs => String c x :: xs
           end
  end.

Definition digitValue (c : ascii) : option Z :=
  let n := code c in
  if (48 <=? n) && (n <=? 57) then Some (n - 48) else None.

(** The digits of the longest prefix of [s] made of decimal digits. *)
Fixpoint leadingDigits (s : string) : list Z :=
  match s with
  | EmptyString => []
  | String c r =>
      match digitValue c with
      | Some d => d :: leadingDigits r
      | None => []
      end
  end.

Definition decimalValue (ds : list Z) : Z :=
  fold_left (fun acc d => 10 * acc + d) ds 0.

(** The sign in front of the digits: [-1] after a minus, [1] otherwise; a plus
    or minus is consumed. *)
Definition readSign (s : string) : Z * string :=
  match s with
  | String "-"%char r => (-1, r)
  | String "+"%char r => (1, r)
  | _ => (1, s)
  end.

(** [parseInt(string, 10)].  The argument is an array element: [Some s] for a
    string, [None] for [undefined], which [ToString] turns into
    ["undefined"].  Leading white space is skipped, one sign is read, then the
    longest prefix of digits; without a digit the result is NaN. *)
Definition parseInt (arg : option string) : Number :=
  let inputString := match arg with Some s => s | None => "undefined"%string end in
  let '(sign, body) := readSign (trimStart inputString) in
  match leadingDigits body with
  | [] => NaN
  | ds => Num (sign * decimalValue ds)
  end.

End JsString.

(** ** Values

    The primitive values the script passes around: what a global may hold,
    what [localStorage.getItem] and a permission request answer. *)

Inductive Value : Type :=
| VUndefined
| VNull
| VBoolean (b : bool)
| VNumber (n : Number)
| VString (s : string).

Definition ToBoolean (v : Value) : bool :=
  match v with
  | VUndefined | VNull => false
  | VBoolean b => b
  | VNumber NaN => false
  | VNumber (Num z) => negb (z =? 0)
  | VString s => negb (String.eqb s EmptyString)
  end.

(** [a || b] *)
Definition or_else (a b : Value) : Value := if ToBoolean a then a else b.

(** [a === b] *)
Definition strict_equal (a b : Value) : bool :=
  match a, b with
  | VUndefined, VUndefined => true
  | VNull, VNull => true
  | VBoolean x, VBoolean y => Bool.eqb x y
  | VNumber (Num x), VNumber (Num y) => x =? y
  | VString x, VString y => String.eqb x y
  | _, _ => false
  end.

(** [typeof v !== 'undefined'] *)
Definition is_defined (v : Value) : bool :=
  match v with
  | VUndefined => false
  | _ => true
  end.

(** ** Host effects

    What the script asks of the host, in the order it asks. *)

Inductive Settled : Type :=
| Fulfilled
| Rejected (reason : string).

Inductive Effect : Type :=
| RequestPermission
| SetTimeout (delay : Number)
| ShowNotification (title body : string)
| Share (title text url : string)
| ConsoleError (message reason : string)
| WriteText (text : string)
| Alert (text : string)
| TypeError
| UnhandledRejection (reason : string).

(** ** [localStorage] *)

Module Storage.

Definition t : Type := list (string * string).

Fixpoint getItem (st : t) (key : string) : Value :=
  match st with
  | [] => VNull
  | (k, v) :: rest => if String.eqb k key then VString v else getItem rest key
  end.

Fixpoint setItem (st : t) (key value : string) : t :=
  match st with
  | [] => [(key, value)]
  | (k, v) :: rest =>
      if String.eqb k key then (k, value) :: rest
      else (k, v) :: setItem rest key value
  end.

End Storage.

(** ** The scheduler: [scheduleNotificationAt] *)

Module Scheduler.
Import DateOps DateObject JsString.

(** The element [parts[i]] of an array: [None] is [undefined]. *)
Definition element (parts : list string) (i : nat) : option string :=
  nth_error parts i.

(** The target date and the delay of one arming of the timer. *)
Record Arming : Type := { target : Number; timeout : Number }.

(** The body of [schedule] up to the call of [setTimeout].  The clock is read
    twice, for [now] and for the initial value of [target]; [now] and [now'] are the
    two readings, in milliseconds since the epoch. *)
Definition schedule (LocalTZA : TimeZone) (timeStr : string) (now now' : Z) : Arming :=
  let parts := split ":"%char timeStr in
  let hours := parseInt (element parts 0) in
  let minutes := parseInt (element parts 1) in
  let target0 := setHours LocalTZA (Num now') hours minutes (Num 0) (Num 0) in
  let target1 :=
    if le target0 (Num now)
    then setDate LocalTZA target0 (add (getDate LocalTZA target0) (Num 1))
    else target0 in
  {| target := target1; timeout := sub (getTime target1) (getTime (Num now)) |}.

Definition notificationTitle : string :=
  "Rise & shine, Christa! Ready to glow today?".

Definition notificationBody : string :=
  "Tap to open Christa's Closet for your outfit.".

(** One call of [schedule]: [timeStr.split] throws unless [timeStr] is a
    string; otherwise the timer is armed. *)
Definition arm (LocalTZA : TimeZone) (timeStr : Value) (clock : Z * Z) : list Effect :=
  match timeStr with
  | VString s => [SetTimeout (timeout (schedule LocalTZA s (fst clock) (snd clock)))]
  | _ => [TypeError]
  end.

(** [scheduleNotificationAt(timeStr)] calls [schedule] once. *)
Definition scheduleNotificationAt (LocalTZA : TimeZone) (timeStr : Value)
    (clock : Z * Z) : list Effect :=
  arm LocalTZA timeStr clock.

(** The callback of the timer: the notification, then [schedule] again with
    the clock as it reads then. *)
Definition onTimer (LocalTZA : TimeZone) (timeStr : Value) (clock : Z * Z) : list Effect :=
  ShowNotification notificationTitle notificationBody :: arm LocalTZA timeStr clock.

End Scheduler.

(** ** [setupNotifications] *)

Module Notifications.
Import Scheduler.

(** What [setupNotifications] reads from its host. *)
Record Host : Type := {
  LocalTZA : TimeZone;
  clock : Z * Z;
  (** ['Notification' in window] *)
  hasNotification : bool;
  (** the value the promise of [Notification.requestPermission()] resolves with *)
  permission : Value;
  localStorage : Storage.t;
  (** [window.DEFAULT_NOTIFICATION_TIME], [VUndefined] when the page sets none *)
  DEFAULT_NOTIFICATION_TIME : Value
}.

(** Lines 44 to 46: the time string handed to the scheduler. *)
Definition resolveTime (stored default : Value) : Value :=
  let defaultTime := if is_defined default then default else VString "08:00" in
  or_else (or_else stored defaultTime) (VString "08:00").

Definition setupNotifications (h : Host) : list Effect :=
  if negb (hasNotification h) then []
  else
    RequestPermission ::
    (if negb (strict_equal (permission h) (VString "granted")) then []
     else
       let stored := Storage.getItem (localStorage h) "notification_time" in
       let timeStr := resolveTime stored (DEFAULT_NOTIFICATION_TIME h) in
       scheduleNotificationAt (LocalTZA h) timeStr (clock h)).

(** The [change] listener of the settings input. *)
Definition onTimeChange (st : Storage.t) (value : string) : Storage.t :=
  Storage.setItem st "notification_time" value.

End Notifications.

(** ** The document *)

Module Dom.
Import JsString.

(** Text nodes and elements; an element has its local name, its [id] (empty
    when it has none), the tokens of its [class] attribute and its children. *)
#[warnings="-register-all"] Inductive Node : Type :=
| Text (data : string)
| Element (localName id : string) (classList : list string) (childNodes : list Node).

(** The node and its descendants, in tree order. *)
Fixpoint inclusiveDescendants (n : Node) : list Node :=
  n :: match n with
       | Text _ => []
       | Element _ _ _ children => flat_map inclusiveDescendants children
       end.

Definition descendants (n : Node) : list Node :=
  match n with
  | Text _ => []
  | Element _ _ _ children => flat_map inclusiveDescendants children
  end.

(** [node.textContent]: the data of the text nodes below, in tree order. *)
Fixpoint textContent (n : Node) : string :=
  match n with
  | Text data => data
  | Element _ _ _ children =>
      fold_right (fun c acc => String.append (textContent c) acc) EmptyString children
  end.

(** The selectors of the script: a class selector [.name] or a type selector
    [name]. *)
Definition matches (selector : string) (n : Node) : bool :=
  match n with
  | Text _ => false
  | Element name _ classes _ =>
      match selector with
      | String "."%char cls => existsb (String.eqb cls) classes
      | _ => String.eqb selector name
      end
  end.

(** [document.querySelector(selector)], the document being given by its root
    element. *)
Definition querySelector (root : Node) (selector : string) : option Node :=
  find (matches selector) (inclusiveDescendants root).

(** [element.querySelectorAll(selector)] *)
Definition querySelectorAll (el : Node) (selector : string) : list Node :=
  filter (matches selector) (descendants el).

Definition hasId (id : string) (n : Node) : bool :=
  match n with
  | Text _ => false
  | Element _ i _ _ => String.eqb i id
  end.

(** [document.getElementById(id)] *)
Definition getElementById (root : Node) (id : string) : option Node :=
  find (hasId id) (inclusiveDescendants root).

End Dom.

(** ** [setupShare] *)

Module ShareButton.
Import JsString Dom.

Definition newline : string := String "010"%char EmptyString.

Definition header : string := String.append "My outfit from Christa's Closet:" newline.

(** [navigator]: each capability is absent or present, and when present it
    tells how the promise of a call settles. *)
Record Navigator : Type := {
  share : option (string -> string -> string -> Settled);
  clipboard : option (string -> Settled)
}.

(** Lines 57 to 64: [text] after the loop over the list items. *)
Definition shareText (document : Node) : string :=
  let text := header in
  match querySelector document ".outfit-list" with
  | Some list =>
      let items := querySelectorAll list "li" in
      fold_left
        (fun text li => String.append text (String.append (trim (textContent li)) newline))
        items text
  | None => text
  end.

(** Lines 65 to 79: the delivery of [text]. *)
Definition deliver (navigator : Navigator) (href text : string) : list Effect :=
  match share navigator with
  | Some invoke =>
      Share "Today's Outfit" text href ::
      match invoke "Today's Outfit"%string text href with
      | Fulfilled => []
      | Rejected err => [ConsoleError "Share failed" err]
      end
  | None =>
      match clipboard navigator with
      | Some writeText =>
          WriteText text ::
          match writeText text with
          | Fulfilled => [Alert "Outfit details copied to clipboard!"]
          | Rejected err => [UnhandledRejection err]
          end
      | None => [Alert text]
      end
  end.

(** The [click] listener of the share button. *)
Definition onClick (document : Node) (navigator : Navigator) (href : string)
    : list Effect :=
  deliver navigator href (shareText document).

(** [setupShare()]: the listener it registers, if the button is there. *)
Definition setupShare (document : Node)
    : option (Node -> Navigator -> string -> list Effect) :=
  match getElementById document "share-btn" with
  | None => None
  | Some _ => Some onClick
  end.

End ShareButton.

(** ** Vocabulary of the properties *)

Module TimeOfDay.
Import DateOps DateObject.

(** The time string ["HH:MM"] of hour [h] and minute [m], two digits each. *)
Definition digit (d : Z) : ascii := ascii_of_N (Z.to_N (48 + d)).

Definition twoDigits (n : Z) : string :=
  String (digit (n / 10)) (String (digit (n mod 10)) EmptyString).

Definition timeString (h m : Z) : string :=
  String.append (twoDigits h) (String ":"%char (twoDigits m)).

Definition valid (h m : Z) : Prop := 0 <= h < 24 /\ 0 <= m < 60.

(** Milliseconds from midnight to [h]:[m]:00.000. *)
Definition sinceMidnight (h m : Z) : Z := h * msPerHour + m * msPerMinute.

(** No clock change is near the two clock readings [now] and [now']: the zone
    keeps the offset [off] from two days before the earlier one to three days
    after the later one.  A zone without daylight saving time is calm around
    any two readings. *)
Definition calm (LocalTZA : TimeZone) (off now now' : Z) : Prop :=
  Z.abs off <= msPerDay /\
  forall t isUTC,
    Z.min now now' - 2 * msPerDay <= t <= Z.max now now' + 3 * msPerDay ->
    LocalTZA t isUTC = off.

(** The clock reading [c] is two days or more inside the range of time
    values. *)
Definition inRange (c : Z) : Prop := Z.abs c + 2 * msPerDay <= maxTimeValue.

(** A zone of fixed offset. *)
Definition fixedZone (off : Z) : TimeZone := fun _ _ => off.

End TimeOfDay.

Module TraceVocabulary.
Import ShareButton.

(** The lines of a text, each ended by a newline. *)
Fixpoint joinLines (lines : list string) : string :=
  match lines with
  | [] => EmptyString
  | l :: rest => String.append l (String.append newline (joinLines rest))
  end.

(** The effects of the two fallbacks of the share action. *)
Definition isFallback (e : Effect) : bool :=
  match e with
  | WriteText _ | Alert _ => true
  | _ => false
  end.

(** The effects that start the scheduler or surface an error. *)
Definition startsOrFails (e : Effect) : bool :=
  match e with
  | SetTimeout _ | ShowNotification _ _ | TypeError | UnhandledRejection _ => true
  | _ => false
  end.

End TraceVocabulary.

(** ** Sample hosts and documents *)

Module Samples.
Import DateOps Dom ShareButton Notifications TimeOfDay.

(** Central European Time all year: one hour east of Greenwich. *)
Definition CET : TimeZone := fixedZone 3600000.

(** A zone with daylight saving time around its change of 25 October 2026,
    01:00 UTC, when the clocks go from two hours east of Greenwich back to
    one.  A local time that occurs twice is read as the earlier instant. *)
Definition autumn2026 : TimeZone :=
  fun t isUTC =>
    if isUTC
    then if t <? 1792890000000 then 7200000 else 3600000
    else if t <? 1792890000000 + 7200000 then 7200000 else 3600000.

(** 2 November 2026 is day 20759 since the epoch.  The instants below are
    that day in Central European Time: 06:30:15.250, 07:59:00.000,
    08:00:00.000, 08:00:01.000 and 22:10:00.000. *)
Definition at063015 : Z := 1793601015250 - 3600000.
Definition at075900 : Z := 1793606340000 - 3600000.
Definition at080000 : Z := 1793606400000 - 3600000.
Definition at080001 : Z := 1793606401000 - 3600000.
Definition at221000 : Z := 1793657400000 - 3600000.

(** A page with the outfit list and the share button. *)
Definition page : Node :=
  Element "body" "" []
    [ Element "h1" "" [] [Text "Today"];
      Element "ul" "" ["card"; "outfit-list"]%string
        [ Text (String.append newline "  ");
          Element "li" "" [] [Text " Blue jeans "];
          Text (String.append newline "  ");
          Element "li" "" [] [Element "b" "" [] [Text "White"]; Text " tee"; Text newline] ];
      Element "button" "share-btn" [] [Text "Share"] ].

(** The same page without the list. *)
Definition pageWithoutList : Node :=
  Element "body" "" []
    [ Element "h1" "" [] [Text "Today"];
      Element "button" "share-btn" [] [Text "Share"] ].

(** The list as the server renders it: one [li] holding one text per item. *)
Definition listItem (s : string) : Node := Element "li" "" [] [Text s].

Definition outfitList (items : list string) : Node :=
  Element "ul" "" ["outfit-list"]%string (map listItem items).

(** A browser whose native share is cancelled by the user and which has a
    clipboard. *)
Definition cancellingBrowser : Navigator :=
  {| share := Some (fun _ _ _ => Rejected "AbortError");
     clipboard := Some (fun _ => Fulfilled) |}.

(** A host where the user answered the permission prompt with [answer]. *)
Definition hostAnswering (answer : Value) : Host :=
  {| LocalTZA := CET;
     clock := (at063015, at063015);
     hasNotification := true;
     permission := answer;
     localStorage := [("notification_time", "07:15")]%string;
     DEFAULT_NOTIFICATION_TIME := VString "09:00" |}.

End Samples.

(** ** The page: the [DOMContentLoaded] listener *)

Module Page.
Import Notifications Dom ShareButton.

(** The listeners the page has after its set-up: on the share button and on
    the time input of the settings page. *)
Record Listeners : Type := {
  click : option (Node -> Navigator -> string -> list Effect);
  change : option (Storage.t -> string -> Storage.t)
}.

(** Lines 84 to 94: the effects of [setupNotifications] and the listeners
    registered. *)
Definition onDOMContentLoaded (h : Host) (document : Node) : list Effect * Listeners :=
  (setupNotifications h,
   {| click := setupShare document;
      change := match getElementById document "nt" with
                | Some _ => Some onTimeChange
                | None => None
                end |}).

End Page.

(** ** More vocabulary *)

Module Zones.
Import DateOps.

(** A zone with one clock change, at the instant [T], from the offset
    [before] to the offset [after].  A local time is read with the offset
    [before] up to the end of the interval the change repeats (when the
    clocks go back) or skips (when they go forward), as ECMA-262 asks. *)
Definition stepZone (T before after : Z) : TimeZone :=
  fun t isUTC =>
    if isUTC
    then if t <? T then before else after
    else if t <? T + Z.max before after then before else after.

End Zones.

Module MoreVocabulary.
Import JsString Dom.

(** The code unit [c] occurs in [s]. *)
Fixpoint occurs (c : ascii) (s : string) : bool :=
  match s with
  | EmptyString => false
  | String x r => Ascii.eqb x c || occurs c r
  end.

(** [s] starts with a decimal digit. *)
Definition startsWithDigit (s : string) : bool :=
  match s with
  | EmptyString => false
  | String c _ => match digitValue c with Some _ => true | None => false end
  end.

(** The effect hands [text] to a delivery method. *)
Definition carries (text : string) (e : Effect) : bool :=
  match e with
  | Share _ t _ | WriteText t | Alert t => String.eqb t text
  | _ => false
  end.

(** Induction on a node with the property known of its children. *)
Section NodeInduction.

Variable P : Node -> Prop.
Hypothesis onText : forall data, P (Text data).
Hypothesis onElement :
  forall name id classes children,
    Forall P children -> P (Element name id classes children).

Fixpoint Node_induction (n : Node) : P n :=
  match n with
  | Text data => onText data
  | Element name id classes children =>
      onElement name id classes children
        ((fix all (l : list Node) : Forall P l :=
            match l with
            | [] => Forall_nil P
            | c :: r => Forall_cons c (Node_induction c) (all r)
            end) children)
  end.

End NodeInduction.

End MoreVocabulary.

Module MoreSamples.
Import Dom ShareButton Notifications Samples.

(** The settings page: the time input and nothing to share. *)
Definition settingsPage : Node :=
  Element "body" "" [] [Element "input" "nt" [] []].

(** A list whose item holds a list of its own. *)
Definition nestedList (a b : string) : Node :=
  Element "ul" "" ["outfit-list"]%string
    [Element "li" "" []
       [Text a; Element "ul" "" [] [Element "li" "" [] [Text b]]]].

(** A browser without native share, whose clipboard write settles as
    [outcome]. *)
Definition clipboardOnly (outcome : Settled) : Navigator :=
  {| share := None; clipboard := Some (fun _ => outcome) |}.

(** A host without a persisted time, on a page that sets the default to the
    number 8. *)
Definition hostWithNumberDefault : Host :=
  {| LocalTZA := CET;
     clock := (at063015, at063015);
     hasNotification := true;
     permission := VString "granted";
     localStorage := [];
     DEFAULT_NOTIFICATION_TIME := VNumber (Num 8) |}.

End MoreSamples.

(** ** Clock changes and text: vocabulary of further properties *)

Module ClockChange.
Import DateOps Zones.

(** Near the two clock readings the zone has at most one clock change: from
    a week before the earlier reading to a week after the later one it is the
    zone that changes at [T] from the offset [before] to the offset [after],
    both of at most a day.  With [before = after] this is a zone without a
    clock change near. *)
Definition oneChangeNear (LocalTZA : TimeZone) (T before after now now' : Z) : Prop :=
  Z.abs before <= msPerDay /\ Z.abs after <= msPerDay /\
  forall t isUTC,
    Z.min now now' - 7 * msPerDay <= t <= Z.max now now' + 7 * msPerDay ->
    LocalTZA t isUTC = stepZone T before after t isUTC.

(** The local time [l] is skipped by the change (the clocks go forward over
    it), or repeated by it (the clocks go back over it). *)
Definition skipped (T before after l : Z) : Prop := T + before <= l < T + after.
Definition repeated (T before after l : Z) : Prop := T + after <= l < T + before.

(** The change repeats a local midnight: the clocks go back from after a
    midnight to before it. *)
Definition repeatsMidnight (T before after : Z) : Prop :=
  exists k, T + after < k * msPerDay < T + before.

(** The clock reading [c] is a week or more inside the range of time
    values. *)
Definition wellInRange (c : Z) : Prop := Z.abs c + 7 * msPerDay <= maxTimeValue.

(** Central European Time around 29 March 2026, 01:00 UTC, when the clocks
    go forward from 02:00 to 03:00. *)
Definition spring2026 : TimeZone := stepZone 1774746000000 3600000 7200000.

(** The zone of the Casey station around 4 March 2010, 15:00 UTC, when the
    clocks went back from 02:00 of 5 March, eleven hours east of Greenwich, to
    23:00 of 4 March, eight hours east. *)
Definition casey2010 : TimeZone := stepZone 1267714800000 39600000 28800000.

End ClockChange.

Module TextVocabulary.
Import JsString.

(** [s] holds white space only. *)
Fixpoint blank (s : string) : bool :=
  match s with
  | EmptyString => true
  | String c r => isWhiteSpace c && blank r
  end.

Definition startsWithSpace (s : string) : bool :=
  match s with
  | EmptyString => false
  | String c _ => isWhiteSpace c
  end.

Fixpoint endsWithSpace (s : string) : bool :=
  match s with
  | EmptyString => false
  | String c EmptyString => isWhiteSpace c
  | String _ r => endsWithSpace r
  end.

End TextVocabulary.

(** * Properties *)

(** Linear arithmetic with the quotients and remainders of the time units. *)
Ltac divlia := Z.div_mod_to_equations; lia.

Ltac units :=
  unfold TimeOfDay.sinceMidnight, TimeOfDay.inRange, DateOps.maxTimeValue,
    DateOps.Day, DateOps.TimeWithinDay, DateOps.HourFromTime, DateOps.MinFromTime,
    DateOps.SecFromTime, DateOps.msFromTime, DateOps.HoursPerDay,
    DateOps.MinutesPerHour, DateOps.SecondsPerMinute, DateOps.msPerDay,
    DateOps.msPerHour, DateOps.msPerMinute, DateOps.msPerSecond in *.

(** Case analysis on a number known to be one of a few. *)
Ltac each_of H :=
  cbn [In] in H;
  repeat (destruct H as [H | H]; [match type of H with _ = ?x => subst x end | ]);
  [ .. | contradiction].

(** ** The calendar *)

Module CalendarFacts.
Import DateOps.

Lemma DayFromYear_succ y : DayFromYear (y + 1) = DayFromYear y + DaysInYear y.
Proof.
  unfold DayFromYear, DaysInYear.
  destruct (Z.eqb_spec (y mod 4) 0), (Z.eqb_spec (y mod 100) 0),
    (Z.eqb_spec (y mod 400) 0); cbn [negb]; divlia.
Qed.

Lemma DayFromYear_lt y y' : y < y' -> DayFromYear y < DayFromYear y'.
Proof. unfold DayFromYear. intros. divlia. Qed.

Lemma DayFromYear_le y y' : y <= y' -> DayFromYear y <= DayFromYear y'.
Proof.
  intros H. destruct (Z.eq_dec y y') as [-> | N]; [lia|].
  apply Z.lt_le_incl, DayFromYear_lt. lia.
Qed.

Lemma DaysInYear_cases y : DaysInYear y = 365 \/ DaysInYear y = 366.
Proof.
  unfold DaysInYear.
  destruct (y mod 4 =? 0), (y mod 100 =? 0), (y mod 400 =? 0); cbn; auto.
Qed.

(** The year found from the mean year length is the year of the day. *)
Lemma YearFromTime_spec t :
  DayFromYear (YearFromTime t) <= Day t < DayFromYear (YearFromTime t + 1).
Proof.
  unfold YearFromTime. set (d := Day t). clearbody d.
  set (y := 1970 + 400 * d / 146097).
  assert (Hlo : DayFromYear (y - 1) <= d) by (unfold DayFromYear, y; divlia).
  assert (Hhi : d < DayFromYear (y + 2)) by (unfold DayFromYear, y; divlia).
  destruct (Z.leb_spec (DayFromYear (y + 1)) d).
  - replace (y + 1 + 1) with (y + 2) by lia. lia.
  - destruct (Z.leb_spec (DayFromYear y) d).
    + lia.
    + replace (y - 1 + 1) with y by lia. lia.
Qed.

Lemma YearFromTime_unique t y :
  DayFromYear y <= Day t < DayFromYear (y + 1) -> YearFromTime t = y.
Proof.
  intros H. pose proof (YearFromTime_spec t) as S.
  destruct (Z.lt_trichotomy (YearFromTime t) y) as [L | [E | G]]; [ | exact E | ].
  - pose proof (DayFromYear_le (YearFromTime t + 1) y). lia.
  - pose proof (DayFromYear_le (y + 1) (YearFromTime t)). lia.
Qed.

(** [YearFromTime] as ECMA-262 words it: the largest year that starts at or
    before [t]. *)
Lemma YearFromTime_largest t :
  TimeFromYear (YearFromTime t) <= t /\
  forall y, TimeFromYear y <= t -> y <= YearFromTime t.
Proof.
  pose proof (YearFromTime_spec t) as [Lo Hi]. unfold TimeFromYear, Day, msPerDay in *.
  split; [divlia|].
  intros y Hy. destruct (Z_le_gt_dec y (YearFromTime t)) as [|G]; [assumption|exfalso].
  pose proof (DayFromYear_le (YearFromTime t + 1) y). divlia.
Qed.

Lemma InLeapYear_cases t : InLeapYear t = 0 \/ InLeapYear t = 1.
Proof. unfold InLeapYear. destruct (_ =? _); auto. Qed.

Lemma InLeapYear_days t : DaysInYear (YearFromTime t) = 365 + InLeapYear t.
Proof.
  unfold InLeapYear.
  destruct (DaysInYear_cases (YearFromTime t)) as [E | E]; rewrite E; reflexivity.
Qed.

Lemma DayWithinYear_range t : 0 <= DayWithinYear t < 365 + InLeapYear t.
Proof.
  unfold DayWithinYear. rewrite <- InLeapYear_days.
  pose proof (YearFromTime_spec t) as S. rewrite DayFromYear_succ in S. lia.
Qed.

Lemma MonthFromTime_range t : 0 <= MonthFromTime t <= 11.
Proof.
  unfold MonthFromTime.
  repeat match goal with |- context [if ?b then _ else _] => destruct b end; lia.
Qed.

Lemma month_cases mn :
  0 <= mn <= 11 -> In mn [0; 1; 2; 3; 4; 5; 6; 7; 8; 9; 10; 11].
Proof. cbn [In]. lia. Qed.

Lemma DateFromTime_eq t :
  DateFromTime t
  = DayWithinYear t - DaysBeforeMonth (MonthFromTime t) (InLeapYear t) + 1.
Proof.
  unfold DateFromTime.
  pose proof (month_cases _ (MonthFromTime_range t)) as C. cbn [In] in C.
  repeat (destruct C as [C | C]; [rewrite <- C; cbn [DaysBeforeMonth]; lia | ]).
  contradiction.
Qed.

(** The day of the month counts from 1 and stays within the month. *)
Lemma DateFromTime_range t : 1 <= DateFromTime t <= 31.
Proof.
  rewrite DateFromTime_eq. pose proof (DayWithinYear_range t) as R.
  pose proof (InLeapYear_cases t) as L. revert R. unfold MonthFromTime.
  repeat match goal with
         | |- context [if ?a <? ?b then _ else _] => destruct (Z.ltb_spec a b)
         end; cbn [DaysBeforeMonth]; lia.
Qed.

(** The day [MakeDay] counts from is the first of month [mn] of year [ym], as
    ECMA-262 asks. *)
Lemma MakeDay_first ym mn :
  0 <= mn <= 11 ->
  let l := if DaysInYear ym =? 366 then 1 else 0 in
  let t := (DayFromYear ym + DaysBeforeMonth mn l) * msPerDay in
  YearFromTime t = ym /\ MonthFromTime t = mn /\ DateFromTime t = 1.
Proof.
  intros Hm l t.
  assert (Dt : Day t = DayFromYear ym + DaysBeforeMonth mn l).
  { unfold t, Day, msPerDay. divlia. }
  assert (Hl : DaysInYear ym = 365 + l).
  { unfold l. destruct (DaysInYear_cases ym) as [E | E]; rewrite E; reflexivity. }
  assert (Cl : l = 0 \/ l = 1) by (unfold l; destruct (_ =? _); auto).
  pose proof (month_cases mn Hm) as C.
  assert (Hb : 0 <= DaysBeforeMonth mn l < 365 + l).
  { destruct Cl as [-> | ->]; each_of C; cbn; lia. }
  assert (Y : YearFromTime t = ym).
  { apply YearFromTime_unique. rewrite DayFromYear_succ, Dt. lia. }
  assert (L : InLeapYear t = l) by (unfold InLeapYear; now rewrite Y).
  assert (W : DayWithinYear t = DaysBeforeMonth mn l).
  { unfold DayWithinYear. rewrite Y, Dt. lia. }
  assert (M : MonthFromTime t = mn).
  { unfold MonthFromTime. rewrite W, L.
    destruct Cl as [-> | ->]; each_of C; reflexivity. }
  split; [exact Y|]. split; [exact M|].
  rewrite DateFromTime_eq, W, M, L. lia.
Qed.

(** Setting the day of the month to the current one plus [k] moves the day
    number by [k], across the ends of months and years. *)
Lemma MakeDay_DateFromTime t k :
  MakeDay (Num (YearFromTime t)) (Num (MonthFromTime t)) (Num (DateFromTime t + k))
  = Num (Day t + k).
Proof.
  unfold MakeDay. pose proof (MonthFromTime_range t) as R.
  rewrite Z.div_small, Z.mod_small, Z.add_0_r by lia.
  fold (InLeapYear t). rewrite DateFromTime_eq. unfold DayWithinYear. f_equal. lia.
Qed.

(** 29 February 2024, 12:00 UTC. *)
Example leap_day :
  YearFromTime 1709208000000 = 2024 /\ MonthFromTime 1709208000000 = 1 /\
  DateFromTime 1709208000000 = 29 /\ HourFromTime 1709208000000 = 12.
Proof. repeat split. Qed.

(** The millisecond before the epoch: 31 December 1969, 23:59:59.999. *)
Example before_epoch :
  YearFromTime (-1) = 1969 /\ MonthFromTime (-1) = 11 /\ DateFromTime (-1) = 31 /\
  HourFromTime (-1) = 23 /\ MinFromTime (-1) = 59 /\ SecFromTime (-1) = 59 /\
  msFromTime (-1) = 999.
Proof. repeat split. Qed.

End CalendarFacts.

(** ** The string built-ins *)

Module StringFacts.
Import JsString TimeOfDay.

Lemma append_assoc (a b c : string) :
  String.append (String.append a b) c = String.append a (String.append b c).
Proof. induction a as [| x a IH]; cbn; [reflexivity | now rewrite IH]. Qed.

Lemma append_empty_r (a : string) : String.append a EmptyString = a.
Proof. induction a as [| x a IH]; cbn; [reflexivity | now rewrite IH]. Qed.

(** [split] never answers the empty array. *)
Lemma split_not_empty sep s : split sep s <> [].
Proof.
  destruct s as [| c r]; cbn [split]; [discriminate|].
  destruct (Ascii.eqb c sep); [discriminate|]. destruct (split sep r); discriminate.
Qed.

(** Joining the parts with the separator gives the string back. *)
Lemma split_join sep s : String.concat (String sep EmptyString) (split sep s) = s.
Proof.
  induction s as [| c r IH]; [reflexivity|].
  pose proof (split_not_empty sep r) as N.
  cbn [split]. destruct (Ascii.eqb_spec c sep) as [-> | D].
  - cbn [String.concat]. destruct (split sep r); [contradiction|].
    cbn [append]. now rewrite IH.
  - destruct (split sep r) as [| x xs]; [contradiction|].
    cbn [String.concat] in *. destruct xs; cbn [append]; now rewrite <- IH.
Qed.

Lemma trimStart_clean s :
  match trimStart s with
  | EmptyString => True
  | String c _ => isWhiteSpace c = false
  end.
Proof.
  induction s as [| c r IH]; cbn [trimStart]; [exact I|].
  destruct (isWhiteSpace c) eqn:E; [exact IH | exact E].
Qed.

Lemma trimEnd_head c r :
  isWhiteSpace c = false -> exists r', trimEnd (String c r) = String c r'.
Proof. intros H. cbn [trimEnd]. destruct (trimEnd r); rewrite ?H; eauto. Qed.

Lemma trimEnd_idempotent s : trimEnd (trimEnd s) = trimEnd s.
Proof.
  induction s as [| c r IH]; [reflexivity|].
  cbn [trimEnd]. destruct (trimEnd r) as [| c' r'] eqn:E.
  - destruct (isWhiteSpace c) eqn:W; [reflexivity|]. cbn [trimEnd]. now rewrite W.
  - cbn [trimEnd]. cbn [trimEnd] in IH.
    destruct (trimEnd r') as [| c'' r''] eqn:E'.
    + destruct (isWhiteSpace c') eqn:W'; [discriminate IH|]. now rewrite IH.
    + now rewrite IH.
Qed.

(** A trimmed string has nothing left to trim. *)
Lemma trim_idempotent s : trim (trim s) = trim s.
Proof.
  unfold trim. pose proof (trimStart_clean s) as C.
  destruct (trimStart s) as [| c r]; [reflexivity|].
  destruct (trimEnd_head c r C) as [r' E]. rewrite E.
  cbn [trimStart]. rewrite C. rewrite <- E. apply trimEnd_idempotent.
Qed.

Example trim_item :
  trim (String "009" (String " " (String.append "Blue jeans" (String " " (String "010" "")))))
  = "Blue jeans"%string.
Proof. reflexivity. Qed.

Example split_samples :
  split ":" "08:00" = ["08"; "00"]%string /\
  split ":" "" = [""]%string /\
  split ":" "7" = ["7"]%string /\
  split ":" "a::b" = ["a"; ""; "b"]%string.
Proof. repeat split. Qed.

Example parseInt_samples :
  parseInt (Some "08"%string) = Num 8 /\
  parseInt (Some " 42px"%string) = Num 42 /\
  parseInt (Some "-7"%string) = Num (-7) /\
  parseInt (Some ""%string) = NaN /\
  parseInt (Some "noon"%string) = NaN /\
  parseInt None = NaN.
Proof. repeat split. Qed.

(** *** Time strings *)

Lemma decimal_digit n : 0 <= n < 10 -> In n [0; 1; 2; 3; 4; 5; 6; 7; 8; 9].
Proof. cbn [In]. lia. Qed.

Lemma digit_not_colon d : 0 <= d < 10 -> Ascii.eqb (digit d) ":"%char = false.
Proof. intros H. apply decimal_digit in H. each_of H; reflexivity. Qed.

Lemma digitValue_digit d : 0 <= d < 10 -> digitValue (digit d) = Some d.
Proof. intros H. apply decimal_digit in H. each_of H; reflexivity. Qed.

Lemma trimStart_digit d s :
  0 <= d < 10 -> trimStart (String (digit d) s) = String (digit d) s.
Proof. intros H. apply decimal_digit in H. each_of H; reflexivity. Qed.

Lemma readSign_digit d s :
  0 <= d < 10 -> readSign (String (digit d) s) = (1, String (digit d) s).
Proof. intros H. apply decimal_digit in H. each_of H; reflexivity. Qed.

Lemma split_timeString a b :
  0 <= a < 100 -> 0 <= b < 100 ->
  split ":"%char (timeString a b) = [twoDigits a; twoDigits b].
Proof.
  intros Ha Hb. unfold timeString, twoDigits. cbn [append split].
  rewrite !digit_not_colon by divlia. reflexivity.
Qed.

Lemma parseInt_twoDigits n : 0 <= n < 100 -> parseInt (Some (twoDigits n)) = Num n.
Proof.
  intros Hn. unfold twoDigits, parseInt.
  assert (A1 : 0 <= n / 10 < 10) by divlia.
  assert (A2 : 0 <= n mod 10 < 10) by divlia.
  rewrite trimStart_digit, readSign_digit by assumption.
  cbn [leadingDigits]. rewrite !digitValue_digit by assumption.
  cbn [decimalValue fold_left]. f_equal. divlia.
Qed.

Lemma timeString_0800 : timeString 8 0 = "08:00"%string.
Proof. reflexivity. Qed.

End StringFacts.

(** ** The scheduler *)

Module SchedulerFacts.
Import DateOps DateObject JsString Scheduler TimeOfDay CalendarFacts StringFacts.

(** What [schedule] computes when no parse succeeds, and when the hour runs
    past the day (in a zone of offset zero, at the epoch). *)
Example schedule_not_a_time :
  schedule (fixedZone 0) "soon" 0 0 = {| target := NaN; timeout := NaN |}.
Proof. reflexivity. Qed.

Example schedule_hour_25 :
  schedule (fixedZone 0) "25:00" 0 0
  = {| target := Num (25 * msPerHour); timeout := Num (25 * msPerHour) |}.
Proof. reflexivity. Qed.

(** On 24 October 2026 at 08:00:00.000 in the zone that leaves daylight
    saving time the next night, the target is 08:00 of the next day, 25 hours
    away. *)
Example schedule_across_clock_change :
  schedule Samples.autumn2026 "08:00" 1792821600000 1792821600000
  = {| target := Num 1792911600000; timeout := Num 90000000 |}.
Proof. reflexivity. Qed.

(** The timer fires: the notification, and the timer armed again. *)
Example onTimer_arms_again :
  onTimer Samples.CET (VString "07:15") (Samples.at080000, Samples.at080000)
  = [ShowNotification "Rise & shine, Christa! Ready to glow today?"
       "Tap to open Christa's Closet for your outfit.";
     SetTimeout (Num 83700000)].
Proof. reflexivity. Qed.

(** The local fields of a local time given by its day and its time of day. *)
Lemma local_fields d h m :
  valid h m ->
  let l := d * msPerDay + sinceMidnight h m in
  Day l = d /\ HourFromTime l = h /\ MinFromTime l = m /\
  SecFromTime l = 0 /\ msFromTime l = 0.
Proof. intros [Hh Hm] l. unfold l. units. repeat split; divlia. Qed.

Section Calm.

Variable LocalTZA : TimeZone.
Variables off now now' : Z.
Hypothesis zone : calm LocalTZA off now now'.
Hypothesis range : inRange now'.

Lemma LocalTime_calm t :
  now' - 2 * msPerDay <= t <= now' + 3 * msPerDay -> LocalTime LocalTZA t = t + off.
Proof. intros H. unfold LocalTime. rewrite (proj2 zone); [reflexivity | lia]. Qed.

Lemma UTC_calm t :
  now' - 2 * msPerDay <= t <= now' + 3 * msPerDay -> UTC LocalTZA t = t - off.
Proof. intros H. unfold UTC. rewrite (proj2 zone); [reflexivity | lia]. Qed.

Lemma LocalTime_now : LocalTime LocalTZA now = now + off.
Proof. unfold LocalTime. rewrite (proj2 zone); [reflexivity | units; lia]. Qed.

Lemma LocalTime_now' : LocalTime LocalTZA now' = now' + off.
Proof. apply LocalTime_calm. units. lia. Qed.

(** [target.setHours(hours, minutes, 0, 0)] on a fresh [Date]. *)
Lemma setHours_calm h m :
  0 <= sinceMidnight h m < msPerDay ->
  setHours LocalTZA (Num now') (Num h) (Num m) (Num 0) (Num 0)
  = Num (Day (now' + off) * msPerDay + sinceMidnight h m - off).
Proof.
  intros Hm. destruct zone as [Hoff _].
  unfold setHours. rewrite LocalTime_now'.
  cbn [MakeTime MakeDate UTC_of TimeClip].
  replace (h * msPerHour + m * msPerMinute + 0 * msPerSecond + 0)
    with (sinceMidnight h m) by (unfold sinceMidnight; lia).
  rewrite UTC_calm by (units; divlia).
  destruct (Z.leb_spec
              (Z.abs (Day (now' + off) * msPerDay + sinceMidnight h m - off))
              maxTimeValue) as [_ | B].
  - reflexivity.
  - exfalso. units. divlia.
Qed.

(** [target.setDate(target.getDate() + 1)] adds a day of 24 hours. *)
Lemma nextDate_calm t :
  now' - msPerDay <= t <= now' + msPerDay ->
  setDate LocalTZA (Num t) (add (getDate LocalTZA (Num t)) (Num 1))
  = Num (t + msPerDay).
Proof.
  intros Ht. destruct zone as [Hoff _].
  unfold setDate, getDate. cbn [add].
  rewrite LocalTime_calm by (units; lia).
  rewrite MakeDay_DateFromTime. cbn [MakeDate UTC_of TimeClip].
  replace ((Day (t + off) + 1) * msPerDay + TimeWithinDay (t + off))
    with (t + off + msPerDay) by (units; divlia).
  rewrite UTC_calm by (units; lia).
  destruct (Z.leb_spec (Z.abs (t + off + msPerDay - off)) maxTimeValue) as [_ | B].
  - f_equal. lia.
  - exfalso. units. lia.
Qed.

(** The two branches of [schedule] on a valid time string. *)
Lemma schedule_calm h m :
  valid h m ->
  let today := Day (now' + off) * msPerDay + sinceMidnight h m - off in
  schedule LocalTZA (timeString h m) now now' =
    if today <=? now
    then {| target := Num (today + msPerDay);
            timeout := Num (today + msPerDay - now) |}
    else {| target := Num today; timeout := Num (today - now) |}.
Proof.
  intros [Hh Hm] today. unfold schedule.
  rewrite split_timeString by lia. unfold element. cbn [nth_error].
  rewrite !parseInt_twoDigits by lia.
  rewrite setHours_calm by (units; lia). fold today. cbn [le].
  destruct (Z.leb_spec today now).
  - rewrite nextDate_calm by (unfold today; units; divlia). reflexivity.
  - reflexivity.
Qed.

(** The time of day is still ahead: the target is today. *)
Lemma schedule_ahead h m :
  valid h m ->
  Day (LocalTime LocalTZA now') = Day (LocalTime LocalTZA now) ->
  TimeWithinDay (LocalTime LocalTZA now) < sinceMidnight h m ->
  let T := Day (now + off) * msPerDay + sinceMidnight h m - off in
  schedule LocalTZA (timeString h m) now now'
    = {| target := Num T; timeout := Num (T - now) |} /\
  LocalTime LocalTZA T = Day (now + off) * msPerDay + sinceMidnight h m.
Proof.
  intros Hv Hd Ha T.
  rewrite LocalTime_now in *. rewrite LocalTime_now' in Hd.
  rewrite (schedule_calm h m Hv). cbv zeta. rewrite Hd. fold T.
  assert (now < T) by (unfold T; units; divlia).
  destruct (Z.leb_spec T now); [lia|]. split; [reflexivity|].
  rewrite LocalTime_calm; [unfold T; lia|].
  destruct zone as [Ho _]. destruct Hv. unfold T. units. divlia.
Qed.

(** The time of day is reached or passed: the target is tomorrow. *)
Lemma schedule_passed h m :
  valid h m ->
  Day (LocalTime LocalTZA now') = Day (LocalTime LocalTZA now) ->
  sinceMidnight h m <= TimeWithinDay (LocalTime LocalTZA now) ->
  let T := (Day (now + off) + 1) * msPerDay + sinceMidnight h m - off in
  schedule LocalTZA (timeString h m) now now'
    = {| target := Num T; timeout := Num (T - now) |} /\
  LocalTime LocalTZA T = (Day (now + off) + 1) * msPerDay + sinceMidnight h m.
Proof.
  intros Hv Hd Ha T.
  rewrite LocalTime_now in *. rewrite LocalTime_now' in Hd.
  rewrite (schedule_calm h m Hv). cbv zeta. rewrite Hd.
  set (T0 := Day (now + off) * msPerDay + sinceMidnight h m - off).
  assert (ET : T = T0 + msPerDay) by (unfold T, T0; lia).
  assert (T0 <= now) by (unfold T0; units; divlia).
  destruct (Z.leb_spec T0 now); [|lia]. rewrite <- ET. split; [reflexivity|].
  rewrite LocalTime_calm; [unfold T; lia|].
  destruct zone as [Ho _]. destruct Hv. unfold T. units. divlia.
Qed.

(** The constructed target is the reading [now] itself: one day is added. *)
Lemma schedule_exact h m :
  valid h m ->
  setHours LocalTZA (Num now') (Num h) (Num m) (Num 0) (Num 0) = Num now ->
  schedule LocalTZA (timeString h m) now now'
  = {| target := Num (now + msPerDay); timeout := Num msPerDay |}.
Proof.
  intros Hv Hs.
  rewrite setHours_calm in Hs by (destruct Hv; units; lia).
  injection Hs as Hs.
  rewrite (schedule_calm h m Hv). cbv zeta. rewrite Hs.
  rewrite Z.leb_refl. do 2 f_equal. lia.
Qed.

(** With a clock that does not run backwards the delay is positive. *)
Lemma timeout_positive h m :
  valid h m -> now <= now' ->
  exists d, timeout (schedule LocalTZA (timeString h m) now now') = Num d /\ 0 < d.
Proof.
  intros Hv Hc. rewrite (schedule_calm h m Hv). cbv zeta.
  destruct (Z.leb_spec (Day (now' + off) * msPerDay + sinceMidnight h m - off) now);
    cbn [timeout]; eexists; (split; [reflexivity|]); destruct Hv; units; divlia.
Qed.

End Calm.

End SchedulerFacts.

(** ** The scheduler near a clock change *)

Module NearAChange.
Import DateOps DateObject JsString Scheduler TimeOfDay Zones ClockChange.
Import CalendarFacts StringFacts.

(** Case analysis on the side of the change an instant or a local time lies. *)
Ltac steps :=
  unfold LocalTime, UTC, stepZone in *;
  repeat match goal with
         | |- context [?x <? ?y] => destruct (Z.ltb_spec x y)
         | H : context [?x <? ?y] |- _ => destruct (Z.ltb_spec x y)
         end.

Section Near.

Variable LocalTZA : TimeZone.
Variables T before after now now' : Z.
Hypothesis near : oneChangeNear LocalTZA T before after now now'.
Hypothesis range : wellInRange now'.

Lemma LocalTime_near t :
  now' - 7 * msPerDay <= t <= now' + 7 * msPerDay ->
  LocalTime LocalTZA t = LocalTime (stepZone T before after) t.
Proof.
  intros H. unfold LocalTime. destruct near as [_ [_ N]]. rewrite N; [reflexivity | lia].
Qed.

Lemma UTC_near l :
  now' - 7 * msPerDay <= l <= now' + 7 * msPerDay ->
  UTC LocalTZA l = UTC (stepZone T before after) l.
Proof.
  intros H. unfold UTC. destruct near as [_ [_ N]]. rewrite N; [reflexivity | lia].
Qed.

Lemma LocalTime_near_now :
  LocalTime LocalTZA now = LocalTime (stepZone T before after) now.
Proof.
  unfold LocalTime. destruct near as [_ [_ N]]. rewrite N; [reflexivity | units; lia].
Qed.

(** The two branches of [schedule] on a valid time string, with the zone read
    as the zone of one change. *)
Lemma schedule_near h m :
  valid h m ->
  let zone := stepZone T before after in
  let L0 := Day (LocalTime zone now') * msPerDay + sinceMidnight h m in
  let t0 := UTC zone L0 in
  let L1 := LocalTime zone t0 + msPerDay in
  let t1 := UTC zone L1 in
  schedule LocalTZA (timeString h m) now now' =
    if t0 <=? now
    then {| target := Num t1; timeout := Num (t1 - now) |}
    else {| target := Num t0; timeout := Num (t0 - now) |}.
Proof.
  intros [Hh Hm] zone L0 t0 L1 t1. pose proof near as [Hb [Ha _]].
  assert (B0 : now' - 2 * msPerDay <= L0 <= now' + 2 * msPerDay).
  { unfold L0, zone. steps; units; divlia. }
  assert (B1 : now' - 3 * msPerDay <= t0 <= now' + 3 * msPerDay).
  { unfold t0, zone. revert B0. generalize L0. intros l B. steps; units; lia. }
  assert (B2 : now' - 3 * msPerDay <= L1 <= now' + 5 * msPerDay).
  { unfold L1, zone. revert B1. generalize t0. intros t B. steps; units; lia. }
  assert (B3 : now' - 4 * msPerDay <= t1 <= now' + 6 * msPerDay).
  { unfold t1, zone. revert B2. generalize L1. intros l B. steps; units; lia. }
  unfold schedule. rewrite split_timeString by lia. unfold element. cbn [nth_error].
  rewrite !parseInt_twoDigits by lia.
  assert (E0 : setHours LocalTZA (Num now') (Num h) (Num m) (Num 0) (Num 0) = Num t0).
  { unfold setHours. rewrite LocalTime_near by (units; lia).
    cbn [MakeTime MakeDate UTC_of].
    replace (h * msPerHour + m * msPerMinute + 0 * msPerSecond + 0)
      with (sinceMidnight h m) by (unfold sinceMidnight; lia).
    fold zone. fold L0. rewrite UTC_near by (units; lia). fold zone. fold t0.
    cbn [TimeClip]. destruct (Z.leb_spec (Z.abs t0) maxTimeValue); [reflexivity|].
    exfalso. unfold wellInRange in range. units. lia. }
  rewrite E0. cbn [le]. destruct (Z.leb_spec t0 now); [|reflexivity].
  assert (E1 : setDate LocalTZA (Num t0) (add (getDate LocalTZA (Num t0)) (Num 1))
               = Num t1).
  { unfold setDate, getDate. cbn [add]. rewrite LocalTime_near by (units; lia).
    fold zone. rewrite MakeDay_DateFromTime. cbn [MakeDate UTC_of].
    replace ((Day (LocalTime zone t0) + 1) * msPerDay
             + TimeWithinDay (LocalTime zone t0))
      with L1 by (unfold L1; units; divlia).
    rewrite UTC_near by (units; lia). fold zone. fold t1.
    cbn [TimeClip]. destruct (Z.leb_spec (Z.abs t1) maxTimeValue); [reflexivity|].
    exfalso. unfold wellInRange in range. units. lia. }
  rewrite E1. reflexivity.
Qed.

(** The time of day is ahead on the wall clock, it is not skipped, and if it
    is repeated its first pass is still to come: the target is today. *)
Lemma today_near h m :
  valid h m ->
  Day (LocalTime LocalTZA now') = Day (LocalTime LocalTZA now) ->
  TimeWithinDay (LocalTime LocalTZA now) < sinceMidnight h m ->
  let L0 := Day (LocalTime LocalTZA now) * msPerDay + sinceMidnight h m in
  ~ skipped T before after L0 ->
  now < T \/ ~ repeated T before after L0 ->
  schedule LocalTZA (timeString h m) now now'
    = {| target := Num (UTC (stepZone T before after) L0);
         timeout := Num (UTC (stepZone T before after) L0 - now) |} /\
  LocalTime LocalTZA (UTC (stepZone T before after) L0) = L0 /\
  now < UTC (stepZone T before after) L0.
Proof.
  intros Hv Hd Ha. cbv zeta. intros Hs Hr. pose proof near as [Hb [Hf _]].
  rewrite (schedule_near h m Hv). cbv zeta.
  rewrite LocalTime_near_now in *. rewrite LocalTime_near in Hd by (units; lia).
  rewrite Hd.
  set (zone := stepZone T before after) in *.
  set (L0 := Day (LocalTime zone now) * msPerDay + sinceMidnight h m) in *.
  assert (B : now' - 3 * msPerDay <= UTC zone L0 <= now' + 3 * msPerDay /\
              now < UTC zone L0 /\ LocalTime zone (UTC zone L0) = L0).
  { unfold skipped, repeated in *. destruct Hv. clear near range.
    unfold L0 in *. unfold zone in *. repeat split; steps; units; divlia. }
  destruct B as [B1 [B2 B3]].
  destruct (Z.leb_spec (UTC zone L0) now); [lia|].
  split; [reflexivity|]. split; [|assumption].
  rewrite LocalTime_near by (units; lia). exact B3.
Qed.

(** The time of day is reached or passed on the wall clock and is skipped
    neither today nor tomorrow: the target is tomorrow. *)
Lemma tomorrow_near h m :
  valid h m ->
  Day (LocalTime LocalTZA now') = Day (LocalTime LocalTZA now) ->
  sinceMidnight h m <= TimeWithinDay (LocalTime LocalTZA now) ->
  let L1 := (Day (LocalTime LocalTZA now) + 1) * msPerDay + sinceMidnight h m in
  ~ skipped T before after (L1 - msPerDay) ->
  ~ skipped T before after L1 ->
  schedule LocalTZA (timeString h m) now now'
    = {| target := Num (UTC (stepZone T before after) L1);
         timeout := Num (UTC (stepZone T before after) L1 - now) |} /\
  LocalTime LocalTZA (UTC (stepZone T before after) L1) = L1.
Proof.
  intros Hv Hd Hp. cbv zeta. intros Hs0 Hs1. pose proof near as [Hb [Hf _]].
  rewrite (schedule_near h m Hv). cbv zeta.
  rewrite LocalTime_near_now in *. rewrite LocalTime_near in Hd by (units; lia).
  rewrite Hd.
  set (zone := stepZone T before after) in *.
  set (L1 := (Day (LocalTime zone now) + 1) * msPerDay + sinceMidnight h m) in *.
  set (L0 := Day (LocalTime zone now) * msPerDay + sinceMidnight h m) in *.
  assert (E : L1 - msPerDay = L0) by (unfold L1, L0; lia). rewrite E in Hs0.
  assert (B : UTC zone L0 <= now /\ LocalTime zone (UTC zone L0) + msPerDay = L1 /\
              now' - 5 * msPerDay <= UTC zone L1 <= now' + 5 * msPerDay /\
              LocalTime zone (UTC zone L1) = L1).
  { unfold skipped in *. destruct Hv. clear near range E.
    unfold L1, L0 in *. unfold zone in *. repeat split; steps; units; divlia. }
  destruct B as [B1 [B2 [B3 B4]]].
  destruct (Z.leb_spec (UTC zone L0) now); [|lia].
  rewrite B2. split; [reflexivity|].
  rewrite LocalTime_near by (units; lia). exact B4.
Qed.

(** With a clock that does not run backwards and a change that repeats no
    local midnight the delay is positive. *)
Lemma timeout_positive_near h m :
  valid h m -> now <= now' -> ~ repeatsMidnight T before after ->
  exists d, timeout (schedule LocalTZA (timeString h m) now now') = Num d /\ 0 < d.
Proof.
  intros Hv Hc Hm. pose proof near as [Hb [Hf _]].
  rewrite (schedule_near h m Hv). cbv zeta.
  set (zone := stepZone T before after) in *.
  set (L0 := Day (LocalTime zone now') * msPerDay + sinceMidnight h m).
  destruct (Z.leb_spec (UTC zone L0) now) as [B | B]; cbn [timeout];
    eexists; (split; [reflexivity|]); [|lia].
  assert (K : ~ (T + after < (Day (LocalTime zone now') + 1) * msPerDay < T + before)).
  { intros K. apply Hm. eexists. exact K. }
  destruct Hv. clear near range Hm. unfold L0 in *. unfold zone in *.
  steps; units; divlia.
Qed.

End Near.

End NearAChange.

(** ** The scheduler computes the next occurrence of the time of day *)

Module SchedulerSpec.
Import DateOps DateObject Scheduler TimeOfDay Samples StringFacts SchedulerFacts.
Import Zones ClockChange NearAChange.

(** C1, as the code has it.  For a valid time string ["HH:MM"] and a current
    moment whose local time of day is strictly before HH:MM, the target of
    [schedule] is today's date at HH:MM:00.000 and the delay is the target
    minus now, provided today's HH:MM is not a local time that a clock change
    skips, nor one that a clock change repeats and whose first pass is already
    over.  The zone has at most one clock change within a week of the moment,
    the two clock readings are on one local day and a week inside the range of
    time values.  In particular, for ["08:00"] at 07:59:00 on day [D], with no
    clock change inside that minute, the delay is 60000 ms and the target is
    on day [D]. *)
Theorem schedule_today_when_ahead :
  (forall LocalTZA T before after h m now now',
     oneChangeNear LocalTZA T before after now now' -> wellInRange now' ->
     valid h m ->
     Day (LocalTime LocalTZA now') = Day (LocalTime LocalTZA now) ->
     TimeWithinDay (LocalTime LocalTZA now) < sinceMidnight h m ->
     ~ skipped T before after
         (Day (LocalTime LocalTZA now) * msPerDay + sinceMidnight h m) ->
     now < T \/
     ~ repeated T before after
         (Day (LocalTime LocalTZA now) * msPerDay + sinceMidnight h m) ->
     exists target_,
       target (schedule LocalTZA (timeString h m) now now') = Num target_ /\
       timeout (schedule LocalTZA (timeString h m) now now') = Num (target_ - now) /\
       Day (LocalTime LocalTZA target_) = Day (LocalTime LocalTZA now) /\
       HourFromTime (LocalTime LocalTZA target_) = h /\
       MinFromTime (LocalTime LocalTZA target_) = m /\
       SecFromTime (LocalTime LocalTZA target_) = 0 /\
       msFromTime (LocalTime LocalTZA target_) = 0) /\
  (forall LocalTZA T before after D now now',
     oneChangeNear LocalTZA T before after now now' -> wellInRange now' ->
     Day (LocalTime LocalTZA now') = Day (LocalTime LocalTZA now) ->
     LocalTime LocalTZA now = D * msPerDay + (7 * msPerHour + 59 * msPerMinute) ->
     ~ skipped T before after (D * msPerDay + sinceMidnight 8 0) ->
     now < T \/ ~ repeated T before after (D * msPerDay + sinceMidnight 8 0) ->
     ~ (now < T <= now + 60000) ->
     timeout (schedule LocalTZA "08:00" now now') = Num 60000 /\
     exists target_,
       target (schedule LocalTZA "08:00" now now') = Num target_ /\
       Day (LocalTime LocalTZA target_) = D).
Proof.
  split.
  - intros tz T before after h m now now' Hz Hr Hv Hd Ha Hs Hp.
    destruct (today_near tz T before after now now' Hz Hr h m Hv Hd Ha Hs Hp)
      as [E [L _]].
    eexists. rewrite E. cbn [target timeout]. do 2 (split; [reflexivity|]).
    rewrite L. apply (local_fields (Day (LocalTime tz now)) h m Hv).
  - intros tz T before after D now now' Hz Hr Hd Hn Hs Hp Hc.
    assert (Hv : valid 8 0) by (unfold valid; lia).
    assert (HD : Day (LocalTime tz now) = D) by (rewrite Hn; units; divlia).
    assert (Ha : TimeWithinDay (LocalTime tz now) < sinceMidnight 8 0).
    { rewrite Hn. units. divlia. }
    pose proof Hs as Hs'. pose proof Hp as Hp'. rewrite <- HD in Hs', Hp'.
    destruct (today_near tz T before after now now' Hz Hr 8 0 Hv Hd Ha Hs' Hp')
      as [E [L _]].
    rewrite timeString_0800 in E. rewrite E. cbn [target timeout]. split.
    + f_equal. rewrite HD. clear E L Hs' Hp' Ha Hd HD.
      rewrite (LocalTime_near_now tz T before after now now' Hz) in Hn.
      destruct Hz as [Hb [Hf _]]. unfold skipped, repeated in *.
      steps; units; divlia.
    + eexists. split; [reflexivity|]. rewrite L, HD.
      apply (local_fields D 8 0 Hv).
Qed.

(** C1 as the claim has it fails in an hour that a clock change repeats or
    skips.  On 25 October 2026 at 02:15 Central European Time, a quarter of
    an hour after the clocks went back from 03:00 to 02:00, today's 02:30 is
    still ahead, yet the target for ["02:30"] is 02:30 of the next day.  On 29
    March 2026 at 00:30 the target for ["02:30"], a time the clocks skip that
    night, is 03:30. *)
Lemma schedule_today_fails_in_a_repeated_or_skipped_hour :
  (TimeWithinDay (LocalTime autumn2026 1792890900000) < sinceMidnight 2 30 /\
   LocalTime autumn2026 (1792890900000 + 15 * msPerMinute)
     = Day (LocalTime autumn2026 1792890900000) * msPerDay + sinceMidnight 2 30 /\
   target (schedule autumn2026 "02:30" 1792890900000 1792890900000)
     = Num 1792978200000 /\
   Day (LocalTime autumn2026 1792978200000)
     = Day (LocalTime autumn2026 1792890900000) + 1 /\
   Day (LocalTime autumn2026 1792978200000)
     <> Day (LocalTime autumn2026 1792890900000)) /\
  (TimeWithinDay (LocalTime spring2026 1774740600000) < sinceMidnight 2 30 /\
   target (schedule spring2026 "02:30" 1774740600000 1774740600000)
     = Num 1774747800000 /\
   Day (LocalTime spring2026 1774747800000)
     = Day (LocalTime spring2026 1774740600000) /\
   HourFromTime (LocalTime spring2026 1774747800000) = 3 /\
   HourFromTime (LocalTime spring2026 1774747800000) <> 2).
Proof. repeat split; vm_compute; congruence. Qed.

(** C2, as the code has it.  For a valid time string and a current moment
    whose local time of day is strictly after HH:MM, the target of [schedule]
    is tomorrow at HH:MM:00.000, provided no clock change skips HH:MM today or
    tomorrow: on the wall clock it is 24 hours plus the (negative) difference
    of the two times of day ahead of now, and the time that elapses until
    then differs from that by the shift of a clock change in between.  In
    particular, for ["08:00"] at 08:00:01 on day [D] the target is on day
    [D + 1]. *)
Theorem schedule_tomorrow_when_passed :
  (forall LocalTZA T before after h m now now',
     oneChangeNear LocalTZA T before after now now' -> wellInRange now' ->
     valid h m ->
     Day (LocalTime LocalTZA now') = Day (LocalTime LocalTZA now) ->
     sinceMidnight h m < TimeWithinDay (LocalTime LocalTZA now) ->
     ~ skipped T before after
         (Day (LocalTime LocalTZA now) * msPerDay + sinceMidnight h m) ->
     ~ skipped T before after
         ((Day (LocalTime LocalTZA now) + 1) * msPerDay + sinceMidnight h m) ->
     exists target_,
       target (schedule LocalTZA (timeString h m) now now') = Num target_ /\
       timeout (schedule LocalTZA (timeString h m) now now') = Num (target_ - now) /\
       LocalTime LocalTZA target_
         = Day (LocalTime LocalTZA now) * msPerDay + (msPerDay + sinceMidnight h m) /\
       LocalTime LocalTZA target_ - LocalTime LocalTZA now
         = msPerDay + (sinceMidnight h m - TimeWithinDay (LocalTime LocalTZA now)) /\
       target_ - now
         = msPerDay + (sinceMidnight h m - TimeWithinDay (LocalTime LocalTZA now))
           + (LocalTZA now true - LocalTZA target_ true) /\
       Day (LocalTime LocalTZA target_) = Day (LocalTime LocalTZA now) + 1 /\
       HourFromTime (LocalTime LocalTZA target_) = h /\
       MinFromTime (LocalTime LocalTZA target_) = m /\
       SecFromTime (LocalTime LocalTZA target_) = 0 /\
       msFromTime (LocalTime LocalTZA target_) = 0) /\
  (forall LocalTZA T before after D now now',
     oneChangeNear LocalTZA T before after now now' -> wellInRange now' ->
     Day (LocalTime LocalTZA now') = Day (LocalTime LocalTZA now) ->
     LocalTime LocalTZA now = D * msPerDay + (8 * msPerHour + 1 * msPerSecond) ->
     ~ skipped T before after (D * msPerDay + sinceMidnight 8 0) ->
     ~ skipped T before after ((D + 1) * msPerDay + sinceMidnight 8 0) ->
     exists target_,
       target (schedule LocalTZA "08:00" now now') = Num target_ /\
       Day (LocalTime LocalTZA target_) = D + 1).
Proof.
  split.
  - intros tz T before after h m now now' Hz Hr Hv Hd Hp Hs0 Hs1.
    assert (Hs0' : ~ skipped T before after
                     ((Day (LocalTime tz now) + 1) * msPerDay + sinceMidnight h m
                      - msPerDay)).
    { replace ((Day (LocalTime tz now) + 1) * msPerDay + sinceMidnight h m - msPerDay)
        with (Day (LocalTime tz now) * msPerDay + sinceMidnight h m) by lia.
      exact Hs0. }
    destruct (tomorrow_near tz T before after now now' Hz Hr h m Hv Hd
                (Z.lt_le_incl _ _ Hp) Hs0' Hs1) as [E L].
    eexists. rewrite E. cbn [target timeout]. do 2 (split; [reflexivity|]).
    split; [rewrite L; lia|].
    split; [rewrite L; units; divlia|].
    split.
    { unfold LocalTime in L. unfold LocalTime. units. divlia. }
    rewrite L. apply (local_fields (Day (LocalTime tz now) + 1) h m Hv).
  - intros tz T before after D now now' Hz Hr Hd Hn Hs0 Hs1.
    assert (Hv : valid 8 0) by (unfold valid; lia).
    assert (HD : Day (LocalTime tz now) = D) by (rewrite Hn; units; divlia).
    assert (Hp : sinceMidnight 8 0 <= TimeWithinDay (LocalTime tz now)).
    { rewrite Hn. units. divlia. }
    rewrite <- HD in Hs0, Hs1.
    assert (Hs0' : ~ skipped T before after
                     ((Day (LocalTime tz now) + 1) * msPerDay + sinceMidnight 8 0
                      - msPerDay)).
    { replace ((Day (LocalTime tz now) + 1) * msPerDay + sinceMidnight 8 0 - msPerDay)
        with (Day (LocalTime tz now) * msPerDay + sinceMidnight 8 0) by lia.
      exact Hs0. }
    destruct (tomorrow_near tz T before after now now' Hz Hr 8 0 Hv Hd Hp Hs0' Hs1)
      as [E L].
    rewrite timeString_0800 in E. rewrite E. cbn [target].
    eexists. split; [reflexivity|]. rewrite L, HD.
    apply (local_fields (D + 1) 8 0 Hv).
Qed.

(** C2 as the claim has it fails for a time of day that a clock change
    skips.  On 29 March 2026 at 04:00 Central European Summer Time, after the
    clocks went forward from 02:00 to 03:00, the target for ["02:30"] is the
    next day at 03:30, not at 02:30. *)
Lemma schedule_tomorrow_fails_after_a_skipped_hour :
  sinceMidnight 2 30 < TimeWithinDay (LocalTime spring2026 1774749600000) /\
  target (schedule spring2026 "02:30" 1774749600000 1774749600000)
    = Num 1774834200000 /\
  Day (LocalTime spring2026 1774834200000)
    = Day (LocalTime spring2026 1774749600000) + 1 /\
  HourFromTime (LocalTime spring2026 1774834200000) = 3 /\
  MinFromTime (LocalTime spring2026 1774834200000) = 30 /\
  HourFromTime (LocalTime spring2026 1774834200000) <> 2.
Proof. repeat split; vm_compute; congruence. Qed.

(** C3, as the code has it.  When the target built by [setHours] equals the
    reading [now] to the millisecond, the test [target <= now] holds: the
    target is advanced by one day and the delay is 24 hours.  For ["08:00"] at
    08:00:00.000 on day [D] the target is 08:00 on day [D + 1]. *)
Theorem schedule_exact_hit_waits_a_day :
  (forall LocalTZA off h m now now',
     calm LocalTZA off now now' -> inRange now' -> valid h m ->
     setHours LocalTZA (Num now') (Num h) (Num m) (Num 0) (Num 0) = Num now ->
     target (schedule LocalTZA (timeString h m) now now') = Num (now + msPerDay) /\
     timeout (schedule LocalTZA (timeString h m) now now') = Num msPerDay) /\
  (forall LocalTZA off D now now',
     calm LocalTZA off now now' -> inRange now' ->
     Day (LocalTime LocalTZA now') = Day (LocalTime LocalTZA now) ->
     LocalTime LocalTZA now = D * msPerDay + 8 * msPerHour ->
     target (schedule LocalTZA "08:00" now now') = Num (now + msPerDay) /\
     timeout (schedule LocalTZA "08:00" now now') = Num 86400000 /\
     Day (LocalTime LocalTZA (now + msPerDay)) = D + 1 /\
     HourFromTime (LocalTime LocalTZA (now + msPerDay)) = 8).
Proof.
  split.
  - intros tz off h m now now' Hz Hr Hv Hs.
    rewrite (schedule_exact tz off now now' Hz Hr h m Hv Hs). split; reflexivity.
  - intros tz off D now now' Hz Hr Hd Hn.
    assert (Hv : valid 8 0) by (unfold valid; lia).
    rewrite <- timeString_0800.
    rewrite (LocalTime_now tz off now now' Hz) in *.
    rewrite (LocalTime_now' tz off now now' Hz) in Hd.
    rewrite (schedule_exact tz off now now' Hz Hr 8 0 Hv).
    + cbn [target timeout]. do 2 (split; [reflexivity|]).
      rewrite (LocalTime_calm tz off now now' Hz) by (units; divlia).
      units. split; divlia.
    + rewrite (setHours_calm tz off now now' Hz Hr) by (units; lia).
      f_equal. rewrite Hd. units. divlia.
Qed.

(** C3 as the claim has it fails: at 08:00:00.000 of the first day of the
    epoch, in a zone of offset zero, the target built for ["08:00"] is the
    reading itself, yet the target is the next day and the delay is 24 hours,
    not 0. *)
Lemma schedule_exact_hit_not_immediate :
  setHours (fixedZone 0) (Num 28800000) (Num 8) (Num 0) (Num 0) (Num 0)
    = Num 28800000 /\
  target (schedule (fixedZone 0) "08:00" 28800000 28800000) = Num 115200000 /\
  timeout (schedule (fixedZone 0) "08:00" 28800000 28800000) = Num 86400000 /\
  ~ (target (schedule (fixedZone 0) "08:00" 28800000 28800000) = Num 28800000 /\
     timeout (schedule (fixedZone 0) "08:00" 28800000 28800000) = Num 0).
Proof.
  repeat split; try (vm_compute; reflexivity).
  vm_compute. intros [H _]. discriminate H.
Qed.

(** C4, as the code has it.  For a valid time string the delay handed to
    [setTimeout] is a number and is not negative, at every moment near which
    no clock change sets the clocks back over a local midnight, daylight
    saving changes at other hours included.  The second clock reading is not
    before the first, and the zone has at most one clock change within a week
    of the moment. *)
Theorem schedule_timeout_not_negative LocalTZA T before after h m now now' :
  oneChangeNear LocalTZA T before after now now' -> wellInRange now' ->
  valid h m -> now <= now' -> ~ repeatsMidnight T before after ->
  exists d,
    timeout (schedule LocalTZA (timeString h m) now now') = Num d /\ 0 <= d.
Proof.
  intros Hz Hr Hv Hc Hm.
  destruct (timeout_positive_near LocalTZA T before after now now' Hz Hr h m Hv Hc Hm)
    as [d [E P]].
  exists d. split; [exact E | lia].
Qed.

(** C4 as the claim has it fails where a clock change repeats a local
    midnight.  At the Casey station on 4 March 2010 at 23:30, half an hour
    after the clocks went back from 02:00 of 5 March to 23:00 of 4 March, the
    target for ["00:30"] is the first 00:30 of 5 March, two hours in the past:
    the delay is -7 200 000 ms. *)
Lemma schedule_timeout_negative_where_midnight_repeats :
  HourFromTime (LocalTime casey2010 1267716600000) = 23 /\
  MinFromTime (LocalTime casey2010 1267716600000) = 30 /\
  target (schedule casey2010 "00:30" 1267716600000 1267716600000)
    = Num (1267716600000 - 7200000) /\
  timeout (schedule casey2010 "00:30" 1267716600000 1267716600000)
    = Num (-7200000) /\
  ~ (exists d,
       timeout (schedule casey2010 "00:30" 1267716600000 1267716600000) = Num d /\
       0 <= d).
Proof.
  repeat split; try (vm_compute; reflexivity).
  intros [d [E P]]. vm_compute in E. injection E as <-. lia.
Qed.

(** *** The theorems at work on 2 November 2026, in Central European Time *)

Lemma schedule_exact_hit_waits_a_day_witness :
  (calm CET 3600000 at080000 at080000 /\ inRange at080000 /\ valid 8 0 /\
   setHours CET (Num at080000) (Num 8) (Num 0) (Num 0) (Num 0) = Num at080000) /\
  (target (schedule CET (timeString 8 0) at080000 at080000)
     = Num (at080000 + msPerDay) /\
   timeout (schedule CET (timeString 8 0) at080000 at080000) = Num msPerDay) /\
  LocalTime CET at080000 = 20759 * msPerDay + 8 * msPerHour /\
  target (schedule CET "08:00" at080000 at080000) = Num (at080000 + msPerDay) /\
  timeout (schedule CET "08:00" at080000 at080000) = Num 86400000 /\
  Day (LocalTime CET (at080000 + msPerDay)) = 20759 + 1 /\
  HourFromTime (LocalTime CET (at080000 + msPerDay)) = 8.
Proof.
  assert (Z1 : calm CET 3600000 at080000 at080000).
  { split; [unfold msPerDay; lia | reflexivity]. }
  assert (R1 : inRange at080000) by (vm_compute; discriminate).
  assert (V1 : valid 8 0) by (unfold valid; lia).
  assert (S1 : setHours CET (Num at080000) (Num 8) (Num 0) (Num 0) (Num 0)
               = Num at080000) by reflexivity.
  assert (N1 : LocalTime CET at080000 = 20759 * msPerDay + 8 * msPerHour)
    by reflexivity.
  split; [exact (conj Z1 (conj R1 (conj V1 S1)))|].
  split.
  - exact (proj1 schedule_exact_hit_waits_a_day CET 3600000 8 0 at080000 at080000
             Z1 R1 V1 S1).
  - split; [exact N1|].
    exact (proj2 schedule_exact_hit_waits_a_day CET 3600000 20759 at080000 at080000
             Z1 R1 (eq_refl _) N1).
Defined.

(** *** The theorems at work around the clock change of 25 October 2026

    In the zone that leaves daylight saving time on 25 October 2026 at 01:00
    UTC: the night before at 00:30, the morning after at 07:59, the day before
    at 08:00:01, and at 02:15 after the change. *)

Lemma schedule_today_when_ahead_witness :
  (oneChangeNear autumn2026 1792890000000 7200000 3600000
     1792881000000 (1792881000000 + 1) /\
   wellInRange (1792881000000 + 1) /\ valid 8 0 /\
   TimeWithinDay (LocalTime autumn2026 1792881000000) < sinceMidnight 8 0) /\
  (exists target_,
     target (schedule autumn2026 (timeString 8 0) 1792881000000 (1792881000000 + 1))
       = Num target_ /\
     timeout (schedule autumn2026 (timeString 8 0) 1792881000000 (1792881000000 + 1))
       = Num (target_ - 1792881000000) /\
     Day (LocalTime autumn2026 target_) = Day (LocalTime autumn2026 1792881000000) /\
     HourFromTime (LocalTime autumn2026 target_) = 8 /\
     MinFromTime (LocalTime autumn2026 target_) = 0 /\
     SecFromTime (LocalTime autumn2026 target_) = 0 /\
     msFromTime (LocalTime autumn2026 target_) = 0) /\
  LocalTime autumn2026 1792911540000
    = 20751 * msPerDay + (7 * msPerHour + 59 * msPerMinute) /\
  timeout (schedule autumn2026 "08:00" 1792911540000 1792911540000) = Num 60000 /\
  (exists target_,
     target (schedule autumn2026 "08:00" 1792911540000 1792911540000) = Num target_ /\
     Day (LocalTime autumn2026 target_) = 20751).
Proof.
  assert (Z1 : oneChangeNear autumn2026 1792890000000 7200000 3600000
                 1792881000000 (1792881000000 + 1)).
  { split; [unfold msPerDay; lia|]. split; [unfold msPerDay; lia | reflexivity]. }
  assert (R1 : wellInRange (1792881000000 + 1)) by (vm_compute; discriminate).
  assert (V1 : valid 8 0) by (unfold valid; lia).
  assert (A1 : TimeWithinDay (LocalTime autumn2026 1792881000000) < sinceMidnight 8 0)
    by reflexivity.
  assert (S1 : ~ skipped 1792890000000 7200000 3600000
                   (Day (LocalTime autumn2026 1792881000000) * msPerDay
                    + sinceMidnight 8 0)).
  { vm_compute. intros [H1 H2]. first [discriminate H2 | apply H1; reflexivity]. }
  assert (P1 : 1792881000000 < 1792890000000 \/
               ~ repeated 1792890000000 7200000 3600000
                   (Day (LocalTime autumn2026 1792881000000) * msPerDay
                    + sinceMidnight 8 0)).
  { left. lia. }
  assert (Z2 : oneChangeNear autumn2026 1792890000000 7200000 3600000
                 1792911540000 1792911540000).
  { split; [unfold msPerDay; lia|]. split; [unfold msPerDay; lia | reflexivity]. }
  assert (R2 : wellInRange 1792911540000) by (vm_compute; discriminate).
  assert (N2 : LocalTime autumn2026 1792911540000
               = 20751 * msPerDay + (7 * msPerHour + 59 * msPerMinute)) by reflexivity.
  assert (S2 : ~ skipped 1792890000000 7200000 3600000
                   (20751 * msPerDay + sinceMidnight 8 0)).
  { vm_compute. intros [H1 H2]. first [discriminate H2 | apply H1; reflexivity]. }
  assert (P2 : 1792911540000 < 1792890000000 \/
               ~ repeated 1792890000000 7200000 3600000
                   (20751 * msPerDay + sinceMidnight 8 0)).
  { right. vm_compute. intros [H1 H2]. first [discriminate H2 | apply H1; reflexivity]. }
  assert (C2 : ~ (1792911540000 < 1792890000000 <= 1792911540000 + 60000)) by lia.
  split; [exact (conj Z1 (conj R1 (conj V1 A1)))|].
  split.
  - exact (proj1 schedule_today_when_ahead autumn2026 1792890000000 7200000 3600000
             8 0 1792881000000 (1792881000000 + 1) Z1 R1 V1 (eq_refl _) A1 S1 P1).
  - split; [exact N2|].
    exact (proj2 schedule_today_when_ahead autumn2026 1792890000000 7200000 3600000
             20751 1792911540000 1792911540000 Z2 R2 (eq_refl _) N2 S2 P2 C2).
Defined.

Lemma schedule_tomorrow_when_passed_witness :
  (oneChangeNear autumn2026 1792890000000 7200000 3600000
     1792821601000 1792821601000 /\
   wellInRange 1792821601000 /\ valid 8 0 /\
   sinceMidnight 8 0 < TimeWithinDay (LocalTime autumn2026 1792821601000) /\
   LocalTime autumn2026 1792821601000
     = 20750 * msPerDay + (8 * msPerHour + 1 * msPerSecond)) /\
  (exists target_,
     target (schedule autumn2026 (timeString 8 0) 1792821601000 1792821601000)
       = Num target_ /\
     timeout (schedule autumn2026 (timeString 8 0) 1792821601000 1792821601000)
       = Num (target_ - 1792821601000) /\
     LocalTime autumn2026 target_
       = Day (LocalTime autumn2026 1792821601000) * msPerDay
         + (msPerDay + sinceMidnight 8 0) /\
     LocalTime autumn2026 target_ - LocalTime autumn2026 1792821601000
       = msPerDay
         + (sinceMidnight 8 0 - TimeWithinDay (LocalTime autumn2026 1792821601000)) /\
     target_ - 1792821601000
       = msPerDay
         + (sinceMidnight 8 0 - TimeWithinDay (LocalTime autumn2026 1792821601000))
         + (autumn2026 1792821601000 true - autumn2026 target_ true) /\
     Day (LocalTime autumn2026 target_)
       = Day (LocalTime autumn2026 1792821601000) + 1 /\
     HourFromTime (LocalTime autumn2026 target_) = 8 /\
     MinFromTime (LocalTime autumn2026 target_) = 0 /\
     SecFromTime (LocalTime autumn2026 target_) = 0 /\
     msFromTime (LocalTime autumn2026 target_) = 0) /\
  (exists target_,
     target (schedule autumn2026 "08:00" 1792821601000 1792821601000) = Num target_ /\
     Day (LocalTime autumn2026 target_) = 20750 + 1).
Proof.
  assert (Z1 : oneChangeNear autumn2026 1792890000000 7200000 3600000
                 1792821601000 1792821601000).
  { split; [unfold msPerDay; lia|]. split; [unfold msPerDay; lia | reflexivity]. }
  assert (R1 : wellInRange 1792821601000) by (vm_compute; discriminate).
  assert (V1 : valid 8 0) by (unfold valid; lia).
  assert (P1 : sinceMidnight 8 0 < TimeWithinDay (LocalTime autumn2026 1792821601000))
    by reflexivity.
  assert (N1 : LocalTime autumn2026 1792821601000
               = 20750 * msPerDay + (8 * msPerHour + 1 * msPerSecond)) by reflexivity.
  assert (S0 : ~ skipped 1792890000000 7200000 3600000
                   (Day (LocalTime autumn2026 1792821601000) * msPerDay
                    + sinceMidnight 8 0)).
  { vm_compute. intros [H1 H2]. first [discriminate H2 | apply H1; reflexivity]. }
  assert (S1 : ~ skipped 1792890000000 7200000 3600000
                   ((Day (LocalTime autumn2026 1792821601000) + 1) * msPerDay
                    + sinceMidnight 8 0)).
  { vm_compute. intros [H1 H2]. first [discriminate H2 | apply H1; reflexivity]. }
  split; [exact (conj Z1 (conj R1 (conj V1 (conj P1 N1))))|].
  split.
  - exact (proj1 schedule_tomorrow_when_passed autumn2026 1792890000000 7200000
             3600000 8 0 1792821601000 1792821601000 Z1 R1 V1 (eq_refl _) P1 S0 S1).
  - exact (proj2 schedule_tomorrow_when_passed autumn2026 1792890000000 7200000
             3600000 20750 1792821601000 1792821601000 Z1 R1 (eq_refl _) N1 S0 S1).
Defined.

Lemma schedule_timeout_not_negative_witness :
  (oneChangeNear autumn2026 1792890000000 7200000 3600000
     1792890900000 (1792890900000 + 2) /\
   wellInRange (1792890900000 + 2) /\ valid 2 30 /\
   1792890900000 <= 1792890900000 + 2 /\
   ~ repeatsMidnight 1792890000000 7200000 3600000) /\
  exists d,
    timeout (schedule autumn2026 (timeString 2 30) 1792890900000 (1792890900000 + 2))
      = Num d /\
    0 <= d.
Proof.
  assert (Z1 : oneChangeNear autumn2026 1792890000000 7200000 3600000
                 1792890900000 (1792890900000 + 2)).
  { split; [unfold msPerDay; lia|]. split; [unfold msPerDay; lia | reflexivity]. }
  assert (R1 : wellInRange (1792890900000 + 2)) by (vm_compute; discriminate).
  assert (V1 : valid 2 30) by (unfold valid; lia).
  assert (C1 : 1792890900000 <= 1792890900000 + 2) by lia.
  assert (M1 : ~ repeatsMidnight 1792890000000 7200000 3600000).
  { intros [k H]. unfold msPerDay in H. lia. }
  split; [exact (conj Z1 (conj R1 (conj V1 (conj C1 M1))))|].
  exact (schedule_timeout_not_negative autumn2026 1792890000000 7200000 3600000
           2 30 1792890900000 (1792890900000 + 2) Z1 R1 V1 C1 M1).
Defined.

End SchedulerSpec.

(** ** The time string and the permission *)

Module NotificationsSpec.
Import Scheduler Notifications TimeOfDay TraceVocabulary Samples.

Lemma ToBoolean_string s : s <> EmptyString -> ToBoolean (VString s) = true.
Proof. intros H. cbn. apply negb_true_iff, String.eqb_neq, H. Qed.

Lemma resolveTime_truthy stored default :
  ToBoolean stored = true -> resolveTime stored default = stored.
Proof. intros H. unfold resolveTime, or_else. now rewrite !H. Qed.

Lemma resolveTime_falsy stored default :
  ToBoolean stored = false ->
  resolveTime stored default = if ToBoolean default then default else VString "08:00".
Proof.
  intros H. unfold resolveTime, or_else. rewrite H. destruct default; reflexivity.
Qed.

(** What [resolveTime] answers is never falsy. *)
Lemma resolveTime_truthy_result stored default :
  ToBoolean (resolveTime stored default) = true.
Proof.
  destruct (ToBoolean stored) eqn:S.
  - now rewrite resolveTime_truthy.
  - rewrite resolveTime_falsy by assumption.
    destruct (ToBoolean default) eqn:D; [exact D | reflexivity].
Qed.

(** [getItem] answers [null] or a string; after [setItem] it answers the
    value set. *)
Lemma getItem_setItem st key value :
  Storage.getItem (Storage.setItem st key value) key = VString value.
Proof.
  induction st as [| [k v] rest IH]; cbn [Storage.setItem Storage.getItem].
  - now rewrite String.eqb_refl.
  - destruct (String.eqb k key) eqn:E; cbn [Storage.getItem]; now rewrite E.
Qed.

Lemma strict_equal_string v s : strict_equal v (VString s) = true <-> v = VString s.
Proof.
  destruct v as [| | b | [| z] | x]; cbn; try (split; discriminate).
  rewrite String.eqb_eq. split; [now intros -> | now intros [= ->]].
Qed.

(** C6, as the code has it.  A persisted value that is not the empty string
    is the answer, whatever the default.  Without a persisted value the
    answer is the configured default when that is truthy (for a string: not
    empty), and ["08:00"] when the default is missing or falsy. *)
Theorem resolveTime_order :
  (forall s default,
     s <> EmptyString -> resolveTime (VString s) default = VString s) /\
  (forall default,
     ToBoolean default = true -> resolveTime VNull default = default) /\
  (forall default,
     ToBoolean default = false -> resolveTime VNull default = VString "08:00") /\
  resolveTime VNull VUndefined = VString "08:00".
Proof.
  split; [|split; [|split]].
  - intros s d H. apply resolveTime_truthy, ToBoolean_string, H.
  - intros d H. rewrite resolveTime_falsy by reflexivity. now rewrite H.
  - intros d H. rewrite resolveTime_falsy by reflexivity. now rewrite H.
  - reflexivity.
Qed.

Lemma resolveTime_order_witness :
  ("07:15"%string <> EmptyString /\
   resolveTime (VString "07:15") (VString "09:00") = VString "07:15") /\
  (ToBoolean (VString "09:00") = true /\
   resolveTime VNull (VString "09:00") = VString "09:00") /\
  (ToBoolean (VNumber (Num 0)) = false /\
   resolveTime VNull (VNumber (Num 0)) = VString "08:00").
Proof.
  assert (N : "07:15"%string <> EmptyString) by discriminate.
  split; [|split].
  - split; [exact N|].
    exact (proj1 resolveTime_order "07:15"%string (VString "09:00") N).
  - split; [reflexivity|].
    exact (proj1 (proj2 resolveTime_order) (VString "09:00") (eq_refl _)).
  - split; [reflexivity|].
    exact (proj1 (proj2 (proj2 resolveTime_order)) (VNumber (Num 0)) (eq_refl _)).
Defined.

(** C6 as the claim has it fails on empty strings.  After the settings input
    was cleared the persisted value is present and is [""], and the answer is
    the default ["09:00"]; and with no persisted value and the configured
    default [""] the answer is ["08:00"]. *)
Lemma resolveTime_skips_empty_strings :
  Storage.getItem (onTimeChange [] "") "notification_time" = VString "" /\
  resolveTime (Storage.getItem (onTimeChange [] "") "notification_time")
    (VString "09:00") = VString "09:00" /\
  resolveTime (Storage.getItem (onTimeChange [] "") "notification_time")
    (VString "09:00") <> VString "" /\
  Storage.getItem [] "notification_time" = VNull /\
  resolveTime (Storage.getItem [] "notification_time") (VString "") = VString "08:00" /\
  resolveTime (Storage.getItem [] "notification_time") (VString "") <> VString "".
Proof. repeat split; discriminate. Qed.

(** C9.  A persisted value that is the empty string counts as absent: the
    answer is the one for no persisted value, that is the configured default
    when it is a string that is not empty, ["08:00"] when the default is
    missing or is the empty string, and never the empty string. *)
Theorem resolveTime_empty_stored_is_absent default :
  resolveTime (VString "") default = resolveTime VNull default /\
  (forall s, default = VString s -> s <> EmptyString ->
     resolveTime (VString "") default = VString s) /\
  (default = VUndefined \/ default = VString "" ->
     resolveTime (VString "") default = VString "08:00") /\
  resolveTime (VString "") default <> VString "".
Proof.
  split; [reflexivity|]. rewrite resolveTime_falsy by reflexivity. split; [|split].
  - intros s -> H. now rewrite (ToBoolean_string s H).
  - intros [-> | ->]; reflexivity.
  - destruct (ToBoolean default) eqn:E; [|discriminate].
    intros ->. discriminate E.
Qed.

Lemma resolveTime_empty_stored_is_absent_witness :
  resolveTime (VString "") (VString "09:00") = VString "09:00" /\
  resolveTime (VString "") (VString "") = VString "08:00" /\
  resolveTime (VString "") VUndefined = VString "08:00".
Proof.
  split; [|split].
  - apply (proj1 (proj2 (resolveTime_empty_stored_is_absent (VString "09:00")))
             "09:00"%string (eq_refl _)).
    discriminate.
  - apply (proj1 (proj2 (proj2 (resolveTime_empty_stored_is_absent (VString ""))))).
    right. reflexivity.
  - apply (proj1 (proj2 (proj2 (resolveTime_empty_stored_is_absent VUndefined)))).
    left. reflexivity.
Defined.

(** With the permission granted the scheduler starts, and an error surfaces
    when the resolved value is not a string. *)
Lemma setupNotifications_granted h :
  hasNotification h = true -> permission h = VString "granted" ->
  setupNotifications h
  = RequestPermission ::
    scheduleNotificationAt (LocalTZA h)
      (resolveTime (Storage.getItem (localStorage h) "notification_time")
         (DEFAULT_NOTIFICATION_TIME h))
      (clock h).
Proof. intros N P. unfold setupNotifications. now rewrite N, P. Qed.

Example granted_at_063015 :
  setupNotifications (hostAnswering (VString "granted"))
  = [RequestPermission; SetTimeout (Num 2684750)].
Proof. reflexivity. Qed.

Example granted_with_a_number_as_default :
  setupNotifications
    {| LocalTZA := CET; clock := (at063015, at063015); hasNotification := true;
       permission := VString "granted"; localStorage := [];
       DEFAULT_NOTIFICATION_TIME := VNumber (Num 8) |}
  = [RequestPermission; TypeError].
Proof. reflexivity. Qed.

(** C7.  Without the [Notification] capability, or with a permission answer
    other than ['granted'], [setupNotifications] does nothing beyond asking:
    no timer is armed, no notification shown, no error raised. *)
Theorem setupNotifications_idle_without_grant h :
  hasNotification h = false \/ permission h <> VString "granted" ->
  setupNotifications h = (if hasNotification h then [RequestPermission] else []) /\
  existsb startsOrFails (setupNotifications h) = false.
Proof.
  intros H.
  assert (E : setupNotifications h
              = if hasNotification h then [RequestPermission] else []).
  { unfold setupNotifications. destruct (hasNotification h) eqn:N; cbn [negb];
      [|reflexivity].
    destruct H as [H | H]; [discriminate|].
    destruct (strict_equal (permission h) (VString "granted")) eqn:S; [|reflexivity].
    apply strict_equal_string in S. contradiction. }
  split; [exact E|]. rewrite E. destruct (hasNotification h); reflexivity.
Qed.

Lemma setupNotifications_idle_without_grant_witness :
  permission (hostAnswering (VString "denied")) <> VString "granted" /\
  setupNotifications (hostAnswering (VString "denied")) = [RequestPermission] /\
  existsb startsOrFails (setupNotifications (hostAnswering (VString "denied"))) = false.
Proof.
  assert (P : permission (hostAnswering (VString "denied")) <> VString "granted")
    by discriminate.
  split; [exact P|].
  exact (setupNotifications_idle_without_grant (hostAnswering (VString "denied"))
           (or_intror P)).
Defined.

End NotificationsSpec.

(** ** The share action *)

Module ShareSpec.
Import JsString Dom ShareButton TraceVocabulary Samples StringFacts.
Local Open Scope string_scope.

(** The loop of [forEach] appends one line per item. *)
Lemma forEach_joinLines (f : Node -> string) (items : list Node) (text : string) :
  fold_left (fun text li => String.append text (String.append (f li) newline))
    items text
  = String.append text (joinLines (map f items)).
Proof.
  revert text.
  induction items as [| li items IH]; intros text; cbn [fold_left map joinLines].
  - now rewrite append_empty_r.
  - rewrite IH. now rewrite !append_assoc.
Qed.

(** The items of a rendered list, and their text. *)
Lemma querySelectorAll_outfitList items :
  querySelectorAll (outfitList items) "li" = map listItem items.
Proof.
  unfold querySelectorAll, outfitList. cbn [descendants].
  induction items as [| s items IH]; [reflexivity|].
  cbn [map flat_map inclusiveDescendants app filter listItem].
  cbn [matches String.eqb Ascii.eqb Bool.eqb]. cbn [filter matches]. f_equal. exact IH.
Qed.

Lemma textContent_listItem s : textContent (listItem s) = s.
Proof. cbn. apply append_empty_r. Qed.

(** Lines 57 to 64 when the container is there. *)
Lemma shareText_with_list document list :
  querySelector document ".outfit-list" = Some list ->
  shareText document
  = String.append header
      (joinLines (map (fun li => trim (textContent li)) (querySelectorAll list "li"))).
Proof. intros H. unfold shareText. rewrite H. apply forEach_joinLines. Qed.

(** A rendered list of any items, where it is the first list container of the
    document. *)
Lemma shareText_outfitList document items :
  querySelector document ".outfit-list" = Some (outfitList items) ->
  shareText document = String.append header (joinLines (map trim items)).
Proof.
  intros H. rewrite (shareText_with_list document _ H).
  rewrite querySelectorAll_outfitList, map_map. do 2 f_equal.
  apply map_ext. intros s. now rewrite textContent_listItem.
Qed.

(** C5.  When the document has the list container, the share text is the
    header followed by the trimmed text content of each [li] under the
    container, in tree order, each ended by a newline.  With the items
    ["Blue jeans"] and ["White tee"] it is the header line and these two
    lines. *)
Theorem shareText_header_and_items :
  (forall document list,
     querySelector document ".outfit-list" = Some list ->
     shareText document
     = String.append header
         (joinLines
            (map (fun li => trim (textContent li)) (querySelectorAll list "li")))) /\
  (forall document list,
     querySelector document ".outfit-list" = Some list ->
     map (fun li => trim (textContent li)) (querySelectorAll list "li")
       = ["Blue jeans"; "White tee"]%string ->
     shareText document
     = String.append "My outfit from Christa's Closet:"
         (String.append newline
            (String.append "Blue jeans"
               (String.append newline (String.append "White tee" newline))))).
Proof.
  split; [exact shareText_with_list|].
  intros document list H E. rewrite (shareText_with_list document list H), E.
  reflexivity.
Qed.

Lemma shareText_header_and_items_witness :
  querySelector page ".outfit-list"
    = Some (Element "ul" "" ["card"; "outfit-list"]%string
              [ Text (String.append newline "  ");
                Element "li" "" [] [Text " Blue jeans "];
                Text (String.append newline "  ");
                Element "li" "" []
                  [Element "b" "" [] [Text "White"]; Text " tee"; Text newline] ]) /\
  shareText page
  = String.append "My outfit from Christa's Closet:"
      (String.append newline
         (String.append "Blue jeans"
            (String.append newline (String.append "White tee" newline)))).
Proof.
  split; [reflexivity|].
  exact (proj2 shareText_header_and_items page _ (eq_refl _) (eq_refl _)).
Defined.

(** The choice of the method, by presence alone. *)
Lemma deliver_by_presence navigator href text :
  match share navigator, clipboard navigator with
  | Some _, _ => exists rest,
      deliver navigator href text = Share "Today's Outfit" text href :: rest /\
      existsb isFallback rest = false
  | None, Some _ => exists rest,
      deliver navigator href text = WriteText text :: rest
  | None, None => deliver navigator href text = [Alert text]
  end.
Proof.
  unfold deliver. destruct (share navigator) as [invoke|].
  - destruct (invoke "Today's Outfit" text href); eexists; split; reflexivity.
  - destruct (clipboard navigator) as [writeText|]; [|reflexivity].
    eexists; reflexivity.
Qed.

(** C8.  The method is chosen by the presence of the capabilities alone,
    native share before clipboard before [alert].  When [navigator.share] is
    present and its promise rejects, the action asks for the native share and
    logs the failure, and that is all: neither [clipboard.writeText] nor
    [alert] is called, whether or not a clipboard is present. *)
Theorem deliver_share_failure_without_fallback :
  (forall navigator href text,
     match share navigator, clipboard navigator with
     | Some _, _ => exists rest,
         deliver navigator href text = Share "Today's Outfit" text href :: rest /\
         existsb isFallback rest = false
     | None, Some _ => exists rest,
         deliver navigator href text = WriteText text :: rest
     | None, None => deliver navigator href text = [Alert text]
     end) /\
  (forall navigator href text invoke err,
     share navigator = Some invoke ->
     invoke "Today's Outfit" text href = Rejected err ->
     deliver navigator href text
       = [Share "Today's Outfit" text href; ConsoleError "Share failed" err] /\
     existsb isFallback (deliver navigator href text) = false).
Proof.
  split; [exact deliver_by_presence|].
  intros navigator href text invoke err S R.
  unfold deliver. rewrite S, R. split; reflexivity.
Qed.

Lemma deliver_share_failure_without_fallback_witness :
  share cancellingBrowser = Some (fun _ _ _ => Rejected "AbortError") /\
  deliver cancellingBrowser "https://closet.example/" (shareText page)
    = [Share "Today's Outfit" (shareText page) "https://closet.example/";
       ConsoleError "Share failed" "AbortError"] /\
  existsb isFallback
    (deliver cancellingBrowser "https://closet.example/" (shareText page)) = false.
Proof.
  split; [reflexivity|].
  exact (proj2 deliver_share_failure_without_fallback cancellingBrowser
           "https://closet.example/" (shareText page)
           (fun _ _ _ => Rejected "AbortError") "AbortError"
           (eq_refl _) (eq_refl _)).
Defined.

(** C10.  When the document has no list container the share text is the
    header alone, and the click still delivers it: by native share, by the
    clipboard or by [alert], as the capabilities allow. *)
Theorem shareText_without_list_is_header document :
  querySelector document ".outfit-list" = None ->
  shareText document = header /\
  forall navigator href,
    onClick document navigator href = deliver navigator href header /\
    exists e rest,
      onClick document navigator href = e :: rest /\
      (e = Share "Today's Outfit" header href \/ e = WriteText header \/
       e = Alert header).
Proof.
  intros H.
  assert (E : shareText document = header) by (unfold shareText; now rewrite H).
  split; [exact E|]. intros nav href. unfold onClick. rewrite E.
  split; [reflexivity|].
  unfold deliver. destruct (share nav) as [invoke|].
  - eexists _, _. split; [reflexivity|]. auto.
  - destruct (clipboard nav) as [writeText|].
    + eexists _, _. split; [reflexivity|]. auto.
    + eexists _, _. split; [reflexivity|]. auto.
Qed.

Lemma shareText_without_list_is_header_witness :
  querySelector pageWithoutList ".outfit-list" = None /\
  shareText pageWithoutList = header /\
  onClick pageWithoutList cancellingBrowser "https://closet.example/"
    = deliver cancellingBrowser "https://closet.example/" header.
Proof.
  split; [reflexivity|].
  split.
  - exact (proj1 (shareText_without_list_is_header pageWithoutList (eq_refl _))).
  - exact (proj1 (proj2 (shareText_without_list_is_header pageWithoutList (eq_refl _))
                    cancellingBrowser "https://closet.example/")).
Defined.

(** The button is needed for the listener, the list is not. *)
Example setupShare_samples :
  setupShare page = Some onClick /\
  setupShare pageWithoutList = Some onClick /\
  setupShare (outfitList ["Blue jeans"; "White tee"]%string) = None.
Proof. repeat split. Qed.

End ShareSpec.

(** * Further properties of the script *)

(** ** The day after: [target.setDate(target.getDate() + 1)] *)

Module CalendarMore.
Import DateOps DateObject CalendarFacts.
Import Zones ClockChange NearAChange.

Lemma Day_next t : Day (t + msPerDay) = Day t + 1.
Proof. unfold Day, msPerDay. divlia. Qed.

(** Inside a year, the next day is the next date of the month or the first
    of the next month. *)
Lemma month_and_date_within_year l d t t' :
  (l = 0 \/ l = 1) -> 0 <= d -> d + 1 < 365 + l ->
  InLeapYear t = l -> InLeapYear t' = l ->
  DayWithinYear t = d -> DayWithinYear t' = d + 1 ->
  (MonthFromTime t' = MonthFromTime t /\ DateFromTime t' = DateFromTime t + 1) \/
  (MonthFromTime t' = MonthFromTime t + 1 /\ DateFromTime t' = 1).
Proof.
  intros Hl H0 H1 L L' W W'.
  rewrite !DateFromTime_eq. unfold MonthFromTime. rewrite L, L', W, W'.
  destruct Hl as [-> | ->];
  repeat match goal with
         | |- context [if ?a <? ?b then _ else _] => destruct (Z.ltb_spec a b)
         end; cbn [DaysBeforeMonth]; lia.
Qed.

Lemma next_day_in_the_calendar t :
  (YearFromTime (t + msPerDay) = YearFromTime t /\
   MonthFromTime (t + msPerDay) = MonthFromTime t /\
   DateFromTime (t + msPerDay) = DateFromTime t + 1) \/
  (YearFromTime (t + msPerDay) = YearFromTime t /\
   MonthFromTime (t + msPerDay) = MonthFromTime t + 1 /\
   DateFromTime (t + msPerDay) = 1) \/
  (YearFromTime (t + msPerDay) = YearFromTime t + 1 /\
   MonthFromTime t = 11 /\ DateFromTime t = 31 /\
   MonthFromTime (t + msPerDay) = 0 /\ DateFromTime (t + msPerDay) = 1).
Proof.
  set (t' := t + msPerDay).
  pose proof (YearFromTime_spec t) as S. pose proof (DayWithinYear_range t) as R.
  pose proof (InLeapYear_days t) as Ld. pose proof (InLeapYear_cases t) as Lc.
  assert (D' : Day t' = Day t + 1) by apply Day_next.
  destruct (Z_lt_le_dec (DayWithinYear t + 1) (365 + InLeapYear t)) as [In | Out].
  - assert (Y : YearFromTime t' = YearFromTime t).
    { apply YearFromTime_unique. rewrite D', DayFromYear_succ, Ld.
      unfold DayWithinYear in In. lia. }
    assert (L : InLeapYear t' = InLeapYear t) by (unfold InLeapYear; now rewrite Y).
    assert (W : DayWithinYear t' = DayWithinYear t + 1).
    { unfold DayWithinYear. rewrite Y, D'. lia. }
    destruct (month_and_date_within_year (InLeapYear t) (DayWithinYear t) t t'
                Lc (proj1 R) In eq_refl L eq_refl W) as [[M Dt] | [M Dt]].
    + left. auto.
    + right. left. auto.
  - right. right.
    assert (Wl : DayWithinYear t = 364 + InLeapYear t) by lia.
    assert (Y : YearFromTime t' = YearFromTime t + 1).
    { apply YearFromTime_unique. rewrite D'.
      rewrite (DayFromYear_succ (YearFromTime t + 1)), (DayFromYear_succ (YearFromTime t)), Ld.
      unfold DayWithinYear in Wl.
      destruct (DaysInYear_cases (YearFromTime t + 1)); lia. }
    assert (W : DayWithinYear t' = 0).
    { unfold DayWithinYear. rewrite Y, D', DayFromYear_succ, Ld.
      unfold DayWithinYear in Wl. lia. }
    assert (M : MonthFromTime t = 11).
    { unfold MonthFromTime. rewrite Wl. destruct Lc as [-> | ->]; reflexivity. }
    assert (M' : MonthFromTime t' = 0) by (unfold MonthFromTime; now rewrite W).
    split; [exact Y|]. split; [exact M|]. split.
    + rewrite DateFromTime_eq, M, Wl. cbn [DaysBeforeMonth]. lia.
    + split; [exact M'|]. rewrite DateFromTime_eq, M', W. reflexivity.
Qed.

(** X15.  Line 27 asks for the local time one day of 24 hours after the local
    time of the target, in every zone and on every date: same time of day, on
    the next date of the month, or the first of the next month, or 1 January
    of the next year after 31 December; no date of the month (29, 30, 31 plus
    one) makes it fail.  Where the zone has at most one clock change within a
    week of the target, the new [Date] reads that local time, except when the
    clock change skips it: then it reads the local time later by the shift of
    the clocks. *)
Theorem next_date_is_the_next_calendar_day LocalTZA t :
  (setDate LocalTZA (Num t) (add (getDate LocalTZA (Num t)) (Num 1))
   = TimeClip (UTC_of LocalTZA (Num (LocalTime LocalTZA t + msPerDay))) /\
   TimeWithinDay (LocalTime LocalTZA t + msPerDay)
   = TimeWithinDay (LocalTime LocalTZA t) /\
   ((YearFromTime (LocalTime LocalTZA t + msPerDay) = YearFromTime (LocalTime LocalTZA t) /\
     MonthFromTime (LocalTime LocalTZA t + msPerDay)
     = MonthFromTime (LocalTime LocalTZA t) /\
     DateFromTime (LocalTime LocalTZA t + msPerDay)
     = DateFromTime (LocalTime LocalTZA t) + 1) \/
    (YearFromTime (LocalTime LocalTZA t + msPerDay) = YearFromTime (LocalTime LocalTZA t) /\
     MonthFromTime (LocalTime LocalTZA t + msPerDay)
     = MonthFromTime (LocalTime LocalTZA t) + 1 /\
     DateFromTime (LocalTime LocalTZA t + msPerDay) = 1) \/
    (YearFromTime (LocalTime LocalTZA t + msPerDay)
     = YearFromTime (LocalTime LocalTZA t) + 1 /\
     MonthFromTime (LocalTime LocalTZA t) = 11 /\
     DateFromTime (LocalTime LocalTZA t) = 31 /\
     MonthFromTime (LocalTime LocalTZA t + msPerDay) = 0 /\
     DateFromTime (LocalTime LocalTZA t + msPerDay) = 1))) /\
  forall T before after,
    oneChangeNear LocalTZA T before after t t ->
    wellInRange t ->
    exists t',
      setDate LocalTZA (Num t) (add (getDate LocalTZA (Num t)) (Num 1)) = Num t' /\
      (~ skipped T before after (LocalTime LocalTZA t + msPerDay) ->
       LocalTime LocalTZA t' = LocalTime LocalTZA t + msPerDay) /\
      (skipped T before after (LocalTime LocalTZA t + msPerDay) ->
       LocalTime LocalTZA t' = LocalTime LocalTZA t + msPerDay + (after - before)).
Proof.
  assert (E : setDate LocalTZA (Num t) (add (getDate LocalTZA (Num t)) (Num 1))
              = TimeClip (UTC_of LocalTZA (Num (LocalTime LocalTZA t + msPerDay)))).
  { unfold setDate, getDate. cbn [add]. rewrite MakeDay_DateFromTime. cbn [MakeDate].
    do 3 f_equal. units. divlia. }
  split; [split; [exact E | split]|].
  - units. divlia.
  - apply next_day_in_the_calendar.
  - intros T before after near range.
    pose proof near as [Hb [Ha _]]. unfold wellInRange in range.
    assert (Ht : LocalTime LocalTZA t = LocalTime (stepZone T before after) t).
    { apply (LocalTime_near LocalTZA T before after t t near). unfold msPerDay. lia. }
    assert (Bt : Z.abs (LocalTime (stepZone T before after) t - t) <= msPerDay).
    { steps; lia. }
    set (L' := LocalTime LocalTZA t + msPerDay) in *.
    assert (Hu : UTC LocalTZA L' = UTC (stepZone T before after) L').
    { apply (UTC_near LocalTZA T before after t t near).
      unfold L'. rewrite Ht. unfold msPerDay in *. lia. }
    assert (Bu : Z.abs (UTC (stepZone T before after) L' - L') <= msPerDay).
    { steps; lia. }
    exists (UTC LocalTZA L'). split; [|split].
    + rewrite E. cbn [UTC_of TimeClip].
      destruct (Z.leb_spec (Z.abs (UTC LocalTZA L')) maxTimeValue) as [_ | Out];
        [reflexivity|].
      exfalso. rewrite Hu in Out. unfold L' in *. rewrite Ht in *.
      unfold msPerDay in *. lia.
    + intros Hs.
      rewrite (LocalTime_near LocalTZA T before after t t near), Hu.
      * unfold skipped in Hs. clear - Hs. steps; lia.
      * rewrite Hu. unfold L' in *. rewrite Ht in *. unfold msPerDay in *. lia.
    + intros Hs.
      rewrite (LocalTime_near LocalTZA T before after t t near), Hu.
      * unfold skipped in Hs. clear - Hs. steps; lia.
      * rewrite Hu. unfold L' in *. rewrite Ht in *. unfold msPerDay in *. lia.
Qed.

(** From 31 December 2026, 08:00 in Central European Time, to 1 January 2027,
    and from 28 February 2024 to the 29th. *)
Example next_date_at_the_end_of_a_year :
  setDate Samples.CET (Num 1798700400000)
    (add (getDate Samples.CET (Num 1798700400000)) (Num 1))
  = Num (1798700400000 + msPerDay) /\
  getDate Samples.CET (Num 1798700400000) = Num 31 /\
  getDate Samples.CET (Num (1798700400000 + msPerDay)) = Num 1 /\
  YearFromTime (LocalTime Samples.CET (1798700400000 + msPerDay)) = 2027.
Proof. repeat split. Qed.

Example next_date_in_a_leap_february :
  getDate Samples.CET (Num 1709107200000) = Num 28 /\
  setDate Samples.CET (Num 1709107200000)
    (add (getDate Samples.CET (Num 1709107200000)) (Num 1))
  = Num (1709107200000 + msPerDay) /\
  getDate Samples.CET (Num (1709107200000 + msPerDay)) = Num 29.
Proof. repeat split. Qed.

(** From 28 March 2026, 02:30 in Central European Time: 02:30 of the 29th is
    skipped by the clocks going forward, and the new [Date] reads 03:30. *)
Example next_date_into_a_skipped_hour :
  HourFromTime (LocalTime spring2026 1774661400000) = 2 /\
  MinFromTime (LocalTime spring2026 1774661400000) = 30 /\
  setDate spring2026 (Num 1774661400000)
    (add (getDate spring2026 (Num 1774661400000)) (Num 1))
  = Num 1774747800000 /\
  DateFromTime (LocalTime spring2026 1774747800000) = 29 /\
  HourFromTime (LocalTime spring2026 1774747800000) = 3 /\
  MinFromTime (LocalTime spring2026 1774747800000) = 30.
Proof. repeat split. Qed.

Lemma next_date_is_the_next_calendar_day_witness :
  (oneChangeNear spring2026 1774746000000 3600000 7200000
     1774661400000 1774661400000 /\
   wellInRange 1774661400000 /\
   skipped 1774746000000 3600000 7200000
     (LocalTime spring2026 1774661400000 + msPerDay)) /\
  exists t',
    setDate spring2026 (Num 1774661400000)
      (add (getDate spring2026 (Num 1774661400000)) (Num 1)) = Num t' /\
    LocalTime spring2026 t'
    = LocalTime spring2026 1774661400000 + msPerDay + (7200000 - 3600000).
Proof.
  assert (Z1 : oneChangeNear spring2026 1774746000000 3600000 7200000
                 1774661400000 1774661400000).
  { split; [unfold msPerDay; lia|]. split; [unfold msPerDay; lia | reflexivity]. }
  assert (R1 : wellInRange 1774661400000) by (vm_compute; discriminate).
  assert (S1 : skipped 1774746000000 3600000 7200000
                 (LocalTime spring2026 1774661400000 + msPerDay)).
  { vm_compute. split; [discriminate | reflexivity]. }
  split; [exact (conj Z1 (conj R1 S1))|].
  destruct (proj2 (next_date_is_the_next_calendar_day spring2026 1774661400000)
              1774746000000 3600000 7200000 Z1 R1) as [t' [E [_ H]]].
  exists t'. exact (conj E (H S1)).
Defined.

End CalendarMore.

(** ** The scheduler beyond valid times and calm zones *)

Module SchedulerMore.
Import DateOps DateObject JsString Scheduler TimeOfDay Zones MoreVocabulary Samples.
Import CalendarFacts StringFacts SchedulerFacts.

(** X1.  For a valid time string, in a calm zone and with both clock readings
    on one local day, the target is the next occurrence of HH:MM:00.000 in
    local time strictly after now: it lies in the 24 hours after now, it is
    the only such instant, and the delay is the target minus now, more than 0
    and at most 86 400 000 ms. *)
Theorem target_is_the_next_occurrence LocalTZA off h m now now' :
  calm LocalTZA off now now' -> inRange now' -> valid h m ->
  Day (LocalTime LocalTZA now') = Day (LocalTime LocalTZA now) ->
  exists T,
    target (schedule LocalTZA (timeString h m) now now') = Num T /\
    timeout (schedule LocalTZA (timeString h m) now now') = Num (T - now) /\
    now < T <= now + msPerDay /\
    TimeWithinDay (LocalTime LocalTZA T) = sinceMidnight h m /\
    forall T', now < T' <= now + msPerDay ->
               TimeWithinDay (T' + off) = sinceMidnight h m -> T' = T.
Proof.
  intros Hz Hr Hv Hd.
  destruct (Z_lt_le_dec (TimeWithinDay (LocalTime LocalTZA now)) (sinceMidnight h m))
    as [Ha | Hp].
  - destruct (schedule_ahead LocalTZA off now now' Hz Hr h m Hv Hd Ha) as [E L].
    eexists. rewrite E. cbn [target timeout]. do 2 (split; [reflexivity|]).
    rewrite L. rewrite (LocalTime_now LocalTZA off now now' Hz) in Ha.
    destruct Hv. units. repeat split; try divlia. intros T' B W. divlia.
  - destruct (schedule_passed LocalTZA off now now' Hz Hr h m Hv Hd Hp) as [E L].
    eexists. rewrite E. cbn [target timeout]. do 2 (split; [reflexivity|]).
    rewrite L. rewrite (LocalTime_now LocalTZA off now now' Hz) in Hp.
    destruct Hv. units. repeat split; try divlia. intros T' B W. divlia.
Qed.

Lemma target_is_the_next_occurrence_witness :
  (calm CET 3600000 at063015 (at063015 + 1) /\ inRange (at063015 + 1) /\
   valid 21 45 /\
   Day (LocalTime CET (at063015 + 1)) = Day (LocalTime CET at063015)) /\
  exists T,
    target (schedule CET (timeString 21 45) at063015 (at063015 + 1)) = Num T /\
    timeout (schedule CET (timeString 21 45) at063015 (at063015 + 1))
      = Num (T - at063015) /\
    at063015 < T <= at063015 + msPerDay /\
    TimeWithinDay (LocalTime CET T) = sinceMidnight 21 45 /\
    forall T', at063015 < T' <= at063015 + msPerDay ->
               TimeWithinDay (T' + 3600000) = sinceMidnight 21 45 -> T' = T.
Proof.
  assert (Z1 : calm CET 3600000 at063015 (at063015 + 1)).
  { split; [unfold msPerDay; lia | reflexivity]. }
  assert (R1 : inRange (at063015 + 1)) by (vm_compute; discriminate).
  assert (V1 : valid 21 45) by (unfold valid; lia).
  assert (D1 : Day (LocalTime CET (at063015 + 1)) = Day (LocalTime CET at063015))
    by reflexivity.
  split; [exact (conj Z1 (conj R1 (conj V1 D1)))|].
  exact (target_is_the_next_occurrence CET 3600000 21 45 at063015 (at063015 + 1)
           Z1 R1 V1 D1).
Defined.

(** The delay of a valid time is within a day. *)
Lemma timeout_within_a_day LocalTZA off h m now now' :
  calm LocalTZA off now now' -> inRange now' -> valid h m ->
  Day (LocalTime LocalTZA now') = Day (LocalTime LocalTZA now) ->
  exists d,
    timeout (schedule LocalTZA (timeString h m) now now') = Num d /\
    0 < d <= msPerDay.
Proof.
  intros Hz Hr Hv Hd.
  destruct (Z_lt_le_dec (TimeWithinDay (LocalTime LocalTZA now)) (sinceMidnight h m))
    as [Ha | Hp].
  - destruct (schedule_ahead LocalTZA off now now' Hz Hr h m Hv Hd Ha) as [E _].
    eexists. rewrite E. cbn [timeout]. split; [reflexivity|].
    rewrite (LocalTime_now LocalTZA off now now' Hz) in Ha. destruct Hv. units. divlia.
  - destruct (schedule_passed LocalTZA off now now' Hz Hr h m Hv Hd Hp) as [E _].
    eexists. rewrite E. cbn [timeout]. split; [reflexivity|].
    rewrite (LocalTime_now LocalTZA off now now' Hz) in Hp. destruct Hv. units. divlia.
Qed.

(** X2.  The callback of the timer shows the notification and arms the timer
    again.  In a zone whose offset is constant from two days before the clock
    readings of the callback to three days after them, the readings being two
    days or more inside the range of time values and the second not before the
    first: when the callback runs at or after the occurrence [T] of HH:MM it
    was armed for, and less than a day after it, the new target is [T] plus
    one day, however late within that day the callback runs and whether or
    not midnight has passed, so the occurrences do not drift. *)
Theorem timer_callback_targets_the_next_day LocalTZA off h m T f f' :
  calm LocalTZA off f f' -> inRange f' -> valid h m ->
  TimeWithinDay (T + off) = sinceMidnight h m ->
  T <= f -> f <= f' -> f' < T + msPerDay ->
  target (schedule LocalTZA (timeString h m) f f') = Num (T + msPerDay) /\
  onTimer LocalTZA (VString (timeString h m)) (f, f')
  = [ShowNotification notificationTitle notificationBody;
     SetTimeout (Num (T + msPerDay - f))].
Proof.
  intros Hz Hr Hv Ho H1 H2 H3.
  unfold onTimer, arm. cbn [fst snd].
  rewrite (schedule_calm LocalTZA off f f' Hz Hr h m Hv). cbv zeta.
  assert (E : Day (f' + off) * msPerDay + sinceMidnight h m - off
              = if Day (f' + off) * msPerDay + sinceMidnight h m - off <=? f
                then T else T + msPerDay).
  { destruct Hv.
    destruct (Z.leb_spec (Day (f' + off) * msPerDay + sinceMidnight h m - off) f);
      units; divlia. }
  destruct (Z.leb_spec (Day (f' + off) * msPerDay + sinceMidnight h m - off) f);
    cbn [target timeout]; rewrite E; split; reflexivity.
Qed.

Lemma timer_callback_targets_the_next_day_witness :
  (calm CET 3600000 at221000 (at221000 + 2) /\ inRange (at221000 + 2) /\
   valid 8 0 /\ TimeWithinDay (at080000 + 3600000) = sinceMidnight 8 0 /\
   at080000 <= at221000 /\ at221000 <= at221000 + 2 /\
   at221000 + 2 < at080000 + msPerDay) /\
  target (schedule CET (timeString 8 0) at221000 (at221000 + 2))
    = Num (at080000 + msPerDay) /\
  onTimer CET (VString (timeString 8 0)) (at221000, at221000 + 2)
  = [ShowNotification notificationTitle notificationBody;
     SetTimeout (Num (at080000 + msPerDay - at221000))].
Proof.
  assert (Z1 : calm CET 3600000 at221000 (at221000 + 2)).
  { split; [unfold msPerDay; lia | reflexivity]. }
  assert (R1 : inRange (at221000 + 2)) by (vm_compute; discriminate).
  assert (V1 : valid 8 0) by (unfold valid; lia).
  assert (O1 : TimeWithinDay (at080000 + 3600000) = sinceMidnight 8 0) by reflexivity.
  assert (A1 : at080000 <= at221000) by (vm_compute; discriminate).
  assert (A2 : at221000 <= at221000 + 2) by lia.
  assert (A3 : at221000 + 2 < at080000 + msPerDay) by reflexivity.
  split; [exact (conj Z1 (conj R1 (conj V1 (conj O1 (conj A1 (conj A2 A3))))))|].
  exact (timer_callback_targets_the_next_day CET 3600000 8 0 at080000 at221000
           (at221000 + 2) Z1 R1 V1 O1 A1 A2 A3).
Defined.

(** *** Time strings that are not valid *)

Lemma split_without_separator sep s : occurs sep s = false -> split sep s = [s].
Proof.
  induction s as [| c r IH]; [reflexivity|].
  cbn [occurs split]. intros H. apply orb_false_iff in H as [H1 H2].
  rewrite H1, (IH H2). reflexivity.
Qed.

Lemma setHours_NaN LocalTZA tv hour min :
  hour = NaN \/ min = NaN -> setHours LocalTZA tv hour min (Num 0) (Num 0) = NaN.
Proof.
  intros H. unfold setHours. destruct tv as [| t0]; [reflexivity|].
  destruct H as [-> | ->]; [reflexivity|]. destruct hour; reflexivity.
Qed.

(** Without a number for the hour or for the minute there is no target and
    no delay. *)
Lemma schedule_not_a_number LocalTZA timeStr now now' :
  parseInt (element (split ":" timeStr) 0) = NaN \/
  parseInt (element (split ":" timeStr) 1) = NaN ->
  schedule LocalTZA timeStr now now' = {| target := NaN; timeout := NaN |}.
Proof. intros H. unfold schedule. rewrite (setHours_NaN _ _ _ _ H). reflexivity. Qed.

(** X3.  A time string without a colon (the empty string, ["0800"], ["8"])
    has no minutes: the target is an invalid date, the delay handed to
    [setTimeout] is NaN, in every zone and at every moment, and every run of
    the timer callback shows the notification and arms the timer with NaN
    again. *)
Theorem time_without_colon_arms_NaN LocalTZA timeStr :
  occurs ":" timeStr = false ->
  (forall now now',
     schedule LocalTZA timeStr now now' = {| target := NaN; timeout := NaN |}) /\
  (forall clock,
     scheduleNotificationAt LocalTZA (VString timeStr) clock = [SetTimeout NaN]) /\
  (forall clock,
     onTimer LocalTZA (VString timeStr) clock
     = [ShowNotification notificationTitle notificationBody; SetTimeout NaN]).
Proof.
  intros H.
  assert (G : forall now now',
     schedule LocalTZA timeStr now now' = {| target := NaN; timeout := NaN |}).
  { intros now now'. apply schedule_not_a_number. right.
    rewrite (split_without_separator _ _ H). reflexivity. }
  split; [exact G|]. split; intros [now now'];
    unfold scheduleNotificationAt, onTimer, arm; cbn [fst snd]; now rewrite G.
Qed.

Lemma time_without_colon_arms_NaN_witness :
  occurs ":" "0800" = false /\
  schedule CET "0800" at063015 at063015 = {| target := NaN; timeout := NaN |} /\
  scheduleNotificationAt CET (VString "0800") (at063015, at063015) = [SetTimeout NaN].
Proof.
  assert (H : occurs ":" "0800" = false) by reflexivity.
  split; [exact H|]. split.
  - exact (proj1 (time_without_colon_arms_NaN CET "0800" H) at063015 at063015).
  - exact (proj1 (proj2 (time_without_colon_arms_NaN CET "0800" H))
             (at063015, at063015)).
Defined.

Lemma leadingDigits_stop s : startsWithDigit s = false -> leadingDigits s = [].
Proof.
  destruct s as [| c r]; [reflexivity|]. cbn.
  destruct (digitValue c); [discriminate | reflexivity].
Qed.

(** The first part of a string that does not start with a digit does not
    start with a digit. *)
Lemma head_of_split sep s :
  startsWithDigit s = false ->
  exists x xs, split sep s = x :: xs /\ startsWithDigit x = false.
Proof.
  intros H. destruct s as [| c r]; [exists EmptyString, []; split; reflexivity|].
  cbn [split]. destruct (Ascii.eqb c sep).
  - exists EmptyString, (split sep r). split; reflexivity.
  - pose proof (split_not_empty sep r) as N.
    destruct (split sep r) as [| y ys]; [contradiction|].
    exists (String c y), ys. split; [reflexivity | exact H].
Qed.

Lemma parseInt_twoDigits_then n x :
  0 <= n < 100 -> startsWithDigit x = false ->
  parseInt (Some (String.append (twoDigits n) x)) = Num n.
Proof.
  intros Hn Hx. unfold twoDigits, parseInt. cbn [append].
  assert (A1 : 0 <= n / 10 < 10) by divlia.
  assert (A2 : 0 <= n mod 10 < 10) by divlia.
  rewrite trimStart_digit, readSign_digit by assumption.
  cbn [leadingDigits]. rewrite !digitValue_digit by assumption.
  rewrite (leadingDigits_stop x Hx).
  cbn [decimalValue fold_left]. f_equal. divlia.
Qed.

Lemma parts_with_suffix h m suffix :
  0 <= h < 100 -> 0 <= m < 100 -> startsWithDigit suffix = false ->
  exists x xs,
    split ":" (String.append (timeString h m) suffix)
    = twoDigits h :: String.append (twoDigits m) x :: xs /\
    startsWithDigit x = false.
Proof.
  intros Hh Hm Hs. destruct (head_of_split ":" suffix Hs) as [x [xs [E X]]].
  exists x, xs. split; [|exact X].
  unfold timeString, twoDigits. cbn [append split].
  rewrite !digit_not_colon by divlia. cbn [Ascii.eqb Bool.eqb]. rewrite E. reflexivity.
Qed.

(** X4.  Whatever follows the two digits of the minutes and does not start
    with a digit is ignored: seconds (["08:00:30"]), a meridiem (["08:00
    PM"]), any other text.  The target and the delay are those of
    ["HH:MM"]. *)
Theorem text_after_the_minutes_is_ignored LocalTZA h m suffix now now' :
  0 <= h < 100 -> 0 <= m < 100 -> startsWithDigit suffix = false ->
  schedule LocalTZA (String.append (timeString h m) suffix) now now'
  = schedule LocalTZA (timeString h m) now now'.
Proof.
  intros Hh Hm Hs.
  destruct (parts_with_suffix h m suffix Hh Hm Hs) as [x [xs [E X]]].
  unfold schedule. rewrite E, split_timeString by assumption.
  unfold element. cbn [nth_error].
  now rewrite parseInt_twoDigits_then, !parseInt_twoDigits by assumption.
Qed.

Lemma text_after_the_minutes_is_ignored_witness :
  (0 <= 8 < 100 /\ 0 <= 0 < 100 /\ startsWithDigit ":30" = false /\
   startsWithDigit " PM" = false) /\
  schedule CET "08:00:30" at063015 at063015 = schedule CET "08:00" at063015 at063015 /\
  schedule CET "08:00 PM" at221000 at221000 = schedule CET "08:00" at221000 at221000.
Proof.
  assert (H1 : 0 <= 8 < 100) by lia.
  assert (H2 : 0 <= 0 < 100) by lia.
  assert (S1 : startsWithDigit ":30" = false) by reflexivity.
  assert (S2 : startsWithDigit " PM" = false) by reflexivity.
  split; [exact (conj H1 (conj H2 (conj S1 S2)))|]. split.
  - exact (text_after_the_minutes_is_ignored CET 8 0 ":30" at063015 at063015 H1 H2 S1).
  - exact (text_after_the_minutes_is_ignored CET 8 0 " PM" at221000 at221000 H1 H2 S2).
Defined.

Lemma setHours_sinceMidnight LocalTZA tv h m h' m' :
  sinceMidnight h m = sinceMidnight h' m' ->
  setHours LocalTZA tv (Num h) (Num m) (Num 0) (Num 0)
  = setHours LocalTZA tv (Num h') (Num m') (Num 0) (Num 0).
Proof.
  intros E. unfold setHours, MakeTime. unfold sinceMidnight in E.
  destruct tv; [reflexivity|]. now rewrite E.
Qed.

(** X5.  Hours and minutes are not checked against 23 and 59: minutes of 60
    or more carry into the hours.  Two time strings of two digits each whose
    hours and minutes add up to the same time since midnight arm the same
    timer, in every zone: ["08:75"] is ["09:15"]. *)
Theorem minutes_and_hours_carry LocalTZA h m h' m' now now' :
  0 <= h < 100 -> 0 <= m < 100 -> 0 <= h' < 100 -> 0 <= m' < 100 ->
  sinceMidnight h m = sinceMidnight h' m' ->
  schedule LocalTZA (timeString h m) now now'
  = schedule LocalTZA (timeString h' m') now now'.
Proof.
  intros Hh Hm Hh' Hm' E. unfold schedule.
  rewrite !split_timeString by assumption. unfold element. cbn [nth_error].
  rewrite !parseInt_twoDigits by assumption.
  now rewrite (setHours_sinceMidnight LocalTZA (Num now') h m h' m' E).
Qed.

Lemma minutes_and_hours_carry_witness :
  (0 <= 8 < 100 /\ 0 <= 75 < 100 /\ 0 <= 9 < 100 /\ 0 <= 15 < 100 /\
   sinceMidnight 8 75 = sinceMidnight 9 15) /\
  schedule CET "08:75" at063015 at063015 = schedule CET "09:15" at063015 at063015.
Proof.
  assert (H1 : 0 <= 8 < 100) by lia.
  assert (H2 : 0 <= 75 < 100) by lia.
  assert (H3 : 0 <= 9 < 100) by lia.
  assert (H4 : 0 <= 15 < 100) by lia.
  assert (E : sinceMidnight 8 75 = sinceMidnight 9 15) by reflexivity.
  split; [exact (conj H1 (conj H2 (conj H3 (conj H4 E))))|].
  exact (minutes_and_hours_carry CET 8 75 9 15 at063015 at063015 H1 H2 H3 H4 E).
Defined.

(** [setHours] with a time of day of up to two days. *)
Lemma setHours_calm_two_days LocalTZA off now now' h m :
  calm LocalTZA off now now' -> inRange now' ->
  0 <= sinceMidnight h m < 2 * msPerDay ->
  setHours LocalTZA (Num now') (Num h) (Num m) (Num 0) (Num 0)
  = Num (Day (now' + off) * msPerDay + sinceMidnight h m - off).
Proof.
  intros Hz Hr Hm. pose proof Hz as [Hoff _].
  unfold setHours. rewrite (LocalTime_now' LocalTZA off now now' Hz).
  cbn [MakeTime MakeDate UTC_of TimeClip].
  replace (h * msPerHour + m * msPerMinute + 0 * msPerSecond + 0)
    with (sinceMidnight h m) by (unfold sinceMidnight; lia).
  rewrite (UTC_calm LocalTZA off now now' Hz) by (units; divlia).
  destruct (Z.leb_spec
              (Z.abs (Day (now' + off) * msPerDay + sinceMidnight h m - off))
              maxTimeValue) as [_ | B].
  - reflexivity.
  - exfalso. units. divlia.
Qed.

(** X6.  In a zone whose offset is constant from two days before the clock
    readings to three days after them, the two readings being on one local
    day and two days or more inside the range of time values, an hour from 24
    to 47 means tomorrow: the target is tomorrow at the hour minus 24, also
    when that time of day is still ahead today, and the delay is more than 24
    hours exactly then. *)
Theorem hours_from_24_mean_tomorrow LocalTZA off h m now now' :
  calm LocalTZA off now now' -> inRange now' ->
  24 <= h < 48 -> 0 <= m < 60 ->
  Day (LocalTime LocalTZA now') = Day (LocalTime LocalTZA now) ->
  exists T,
    target (schedule LocalTZA (timeString h m) now now') = Num T /\
    timeout (schedule LocalTZA (timeString h m) now now') = Num (T - now) /\
    LocalTime LocalTZA T
      = (Day (LocalTime LocalTZA now) + 1) * msPerDay + sinceMidnight (h - 24) m /\
    (msPerDay < T - now <->
     TimeWithinDay (LocalTime LocalTZA now) < sinceMidnight (h - 24) m).
Proof.
  intros Hz Hr Hh Hm Hd.
  rewrite (LocalTime_now LocalTZA off now now' Hz) in *.
  rewrite (LocalTime_now' LocalTZA off now now' Hz) in Hd.
  exists (Day (now + off) * msPerDay + sinceMidnight h m - off).
  unfold schedule. rewrite split_timeString by lia. unfold element. cbn [nth_error].
  rewrite !parseInt_twoDigits by lia.
  rewrite (setHours_calm_two_days LocalTZA off now now' h m Hz Hr) by (units; lia).
  rewrite Hd. cbn [le].
  destruct (Z.leb_spec (Day (now + off) * msPerDay + sinceMidnight h m - off) now)
    as [B | B].
  - exfalso. units. divlia.
  - cbn [target timeout getTime sub]. do 2 (split; [reflexivity|]).
    split.
    + rewrite (LocalTime_calm LocalTZA off now now' Hz).
      * units. lia.
      * destruct Hz as [Ho _]. units. divlia.
    + units. split; intros; divlia.
Qed.

Lemma hours_from_24_mean_tomorrow_witness :
  (calm CET 3600000 at063015 at063015 /\ inRange at063015 /\
   24 <= 32 < 48 /\ 0 <= 0 < 60) /\
  exists T,
    target (schedule CET "32:00" at063015 at063015) = Num T /\
    timeout (schedule CET "32:00" at063015 at063015) = Num (T - at063015) /\
    LocalTime CET T
      = (Day (LocalTime CET at063015) + 1) * msPerDay + sinceMidnight (32 - 24) 0 /\
    (msPerDay < T - at063015 <->
     TimeWithinDay (LocalTime CET at063015) < sinceMidnight (32 - 24) 0).
Proof.
  assert (Z1 : calm CET 3600000 at063015 at063015).
  { split; [unfold msPerDay; lia | reflexivity]. }
  assert (R1 : inRange at063015) by (vm_compute; discriminate).
  assert (H1 : 24 <= 32 < 48) by lia.
  assert (H2 : 0 <= 0 < 60) by lia.
  split; [exact (conj Z1 (conj R1 (conj H1 H2)))|].
  exact (hours_from_24_mean_tomorrow CET 3600000 32 0 at063015 at063015
           Z1 R1 H1 H2 (eq_refl _)).
Defined.

(** *** Across a clock change *)

Lemma stepZone_before T before after t :
  t < T -> LocalTime (stepZone T before after) t = t + before.
Proof.
  intros H. unfold LocalTime, stepZone. destruct (Z.ltb_spec t T); [reflexivity | lia].
Qed.

Lemma stepZone_after T before after t :
  T <= t -> LocalTime (stepZone T before after) t = t + after.
Proof.
  intros H. unfold LocalTime, stepZone. destruct (Z.ltb_spec t T); [lia | reflexivity].
Qed.

Lemma stepZone_UTC_before T before after l :
  l < T + Z.max before after -> UTC (stepZone T before after) l = l - before.
Proof.
  intros H. unfold UTC, stepZone.
  destruct (Z.ltb_spec l (T + Z.max before after)); [reflexivity | lia].
Qed.

Lemma stepZone_UTC_after T before after l :
  T + Z.max before after <= l -> UTC (stepZone T before after) l = l - after.
Proof.
  intros H. unfold UTC, stepZone.
  destruct (Z.ltb_spec l (T + Z.max before after)); [lia | reflexivity].
Qed.

Lemma TimeClip_in_range t : Z.abs t <= maxTimeValue -> TimeClip (Num t) = Num t.
Proof.
  intros H. cbn [TimeClip].
  destruct (Z.leb_spec (Z.abs t) maxTimeValue); [reflexivity | lia].
Qed.

(** The sample zone of autumn 2026 is a zone with one clock change. *)
Lemma autumn2026_is_a_stepZone t isUTC :
  autumn2026 t isUTC = stepZone 1792890000000 7200000 3600000 t isUTC.
Proof. reflexivity. Qed.

(** X13.  When the clocks change between now and the next occurrence of
    HH:MM on the wall clock, and that occurrence lies after the hour the
    change repeats or skips, the target is still HH:MM:00.000 on the wall
    clock, today or tomorrow, and the delay is the wall-clock distance plus
    the shift of the clocks: 25 hours instead of 24 when they go back one
    hour. *)
Theorem wall_clock_time_kept_across_a_clock_change T before after h m now now' :
  valid h m -> now < T -> now' < T ->
  Day (now' + before) = Day (now + before) ->
  Z.abs now' + 2 * msPerDay + Z.abs (before - after) <= maxTimeValue ->
  (now + before < Day (now + before) * msPerDay + sinceMidnight h m ->
   T + Z.max before after <= Day (now + before) * msPerDay + sinceMidnight h m ->
   exists target_,
     schedule (stepZone T before after) (timeString h m) now now'
       = {| target := Num target_; timeout := Num (target_ - now) |} /\
     LocalTime (stepZone T before after) target_
       = Day (now + before) * msPerDay + sinceMidnight h m /\
     target_ - now
       = sinceMidnight h m - TimeWithinDay (now + before) + (before - after)) /\
  (Day (now + before) * msPerDay + sinceMidnight h m <= now + before ->
   T + Z.max before after
     <= (Day (now + before) + 1) * msPerDay + sinceMidnight h m ->
   exists target_,
     schedule (stepZone T before after) (timeString h m) now now'
       = {| target := Num target_; timeout := Num (target_ - now) |} /\
     LocalTime (stepZone T before after) target_
       = (Day (now + before) + 1) * msPerDay + sinceMidnight h m /\
     target_ - now
       = msPerDay + (sinceMidnight h m - TimeWithinDay (now + before))
         + (before - after)).
Proof.
  intros Hv Hn Hn' Hd Hr. destruct Hv as [Hh Hm].
  set (zone := stepZone T before after).
  set (today := Day (now + before) * msPerDay + sinceMidnight h m).
  assert (S : forall tgt,
    setHours zone (Num now') (Num h) (Num m) (Num 0) (Num 0) = tgt ->
    schedule zone (timeString h m) now now'
    = {| target := if le tgt (Num now)
                   then setDate zone tgt (add (getDate zone tgt) (Num 1)) else tgt;
         timeout := sub (if le tgt (Num now)
                         then setDate zone tgt (add (getDate zone tgt) (Num 1))
                         else tgt) (Num now) |}).
  { intros tgt E. unfold schedule. rewrite split_timeString by lia.
    unfold element. cbn [nth_error]. rewrite !parseInt_twoDigits by lia.
    rewrite E. reflexivity. }
  assert (M : MakeTime (Num h) (Num m) (Num 0) (Num 0) = Num (sinceMidnight h m)).
  { unfold MakeTime, sinceMidnight. f_equal. lia. }
  split.
  - intros Ha Hc. exists (today - after).
    assert (E : setHours zone (Num now') (Num h) (Num m) (Num 0) (Num 0)
                = Num (today - after)).
    { unfold setHours, zone. rewrite stepZone_before by assumption. rewrite M, Hd.
      cbn [MakeDate UTC_of]. fold today. rewrite stepZone_UTC_after by assumption.
      apply TimeClip_in_range. unfold today. units. divlia. }
    rewrite (S _ E). cbn [le].
    destruct (Z.leb_spec (today - after) now); [lia|]. cbn [sub].
    split; [reflexivity|]. split.
    + unfold zone. rewrite stepZone_after by lia. lia.
    + unfold today. units. divlia.
  - intros Hp Hc. exists (today + msPerDay - after).
    assert (Hc' : T + Z.max before after <= today + msPerDay) by (unfold today; lia).
    assert (E : setHours zone (Num now') (Num h) (Num m) (Num 0) (Num 0)
                = Num (today - before)).
    { unfold setHours, zone. rewrite stepZone_before by assumption. rewrite M, Hd.
      cbn [MakeDate UTC_of]. fold today. rewrite stepZone_UTC_before by lia.
      apply TimeClip_in_range. unfold today. units. divlia. }
    rewrite (S _ E). cbn [le].
    destruct (Z.leb_spec (today - before) now); [|lia].
    assert (N : setDate zone (Num (today - before))
                  (add (getDate zone (Num (today - before))) (Num 1))
                = Num (today + msPerDay - after)).
    { unfold setDate, getDate, zone. cbn [add].
      rewrite stepZone_before by lia.
      replace (today - before + before) with today by lia.
      rewrite MakeDay_DateFromTime. cbn [MakeDate UTC_of].
      replace ((Day today + 1) * msPerDay + TimeWithinDay today)
        with (today + msPerDay) by (units; divlia).
      rewrite stepZone_UTC_after by assumption.
      apply TimeClip_in_range. unfold today. units. divlia. }
    rewrite N. cbn [sub]. split; [reflexivity|]. split.
    + unfold zone. rewrite stepZone_after by lia. unfold today. lia.
    + unfold today. units. divlia.
Qed.

(** 24 October 2026, 08:00:00.000 on the wall clock, the day before the
    clocks go back: the next 08:00 is 25 hours away. *)
Lemma wall_clock_time_kept_across_a_clock_change_witness :
  (valid 8 0 /\ 1792821600000 < 1792890000000 /\
   Z.abs 1792821600000 + 2 * msPerDay + Z.abs (7200000 - 3600000) <= maxTimeValue /\
   Day (1792821600000 + 7200000) * msPerDay + sinceMidnight 8 0
     <= 1792821600000 + 7200000 /\
   1792890000000 + Z.max 7200000 3600000
     <= (Day (1792821600000 + 7200000) + 1) * msPerDay + sinceMidnight 8 0) /\
  exists target_,
    schedule (stepZone 1792890000000 7200000 3600000) (timeString 8 0)
      1792821600000 1792821600000
      = {| target := Num target_; timeout := Num (target_ - 1792821600000) |} /\
    LocalTime (stepZone 1792890000000 7200000 3600000) target_
      = (Day (1792821600000 + 7200000) + 1) * msPerDay + sinceMidnight 8 0 /\
    target_ - 1792821600000
      = msPerDay + (sinceMidnight 8 0 - TimeWithinDay (1792821600000 + 7200000))
        + (7200000 - 3600000).
Proof.
  assert (V : valid 8 0) by (unfold valid; lia).
  assert (B : 1792821600000 < 1792890000000) by lia.
  assert (R : Z.abs 1792821600000 + 2 * msPerDay + Z.abs (7200000 - 3600000)
              <= maxTimeValue) by (vm_compute; discriminate).
  assert (P : Day (1792821600000 + 7200000) * msPerDay + sinceMidnight 8 0
              <= 1792821600000 + 7200000) by (vm_compute; discriminate).
  assert (C : 1792890000000 + Z.max 7200000 3600000
              <= (Day (1792821600000 + 7200000) + 1) * msPerDay + sinceMidnight 8 0)
    by (vm_compute; discriminate).
  split; [exact (conj V (conj B (conj R (conj P C))))|].
  exact (proj2 (wall_clock_time_kept_across_a_clock_change
                  1792890000000 7200000 3600000 8 0 1792821600000 1792821600000
                  V B B (eq_refl _) R) P C).
Defined.

End SchedulerMore.

(** ** Set-up of the notifications, from the settings to the timer *)

Module NotificationsMore.
Import DateOps DateObject Scheduler Notifications Dom ShareButton Page TimeOfDay.
Import TraceVocabulary Samples MoreSamples NotificationsSpec.

Lemma getItem_null_or_string st key :
  Storage.getItem st key = VNull \/ exists s, Storage.getItem st key = VString s.
Proof.
  induction st as [| [k v] rest IH]; cbn [Storage.getItem]; [now left|].
  destruct (String.eqb k key); [right; eauto | exact IH].
Qed.

Lemma getItem_setItem_other st key value key' :
  key' <> key ->
  Storage.getItem (Storage.setItem st key value) key' = Storage.getItem st key'.
Proof.
  intros N. induction st as [| [k v] rest IH]; cbn [Storage.setItem Storage.getItem].
  - destruct (String.eqb_spec key key'); [congruence | reflexivity].
  - destruct (String.eqb_spec k key) as [-> | D]; cbn [Storage.getItem].
    + destruct (String.eqb_spec key key'); [congruence | reflexivity].
    + now rewrite IH.
Qed.

(** X7.  [setupNotifications] ends in one of four ways: nothing, the
    permission request alone, the request and one armed timer, or the request
    and a [TypeError].  The error is raised exactly when the permission is
    granted, no usable time is persisted (none, or the empty string) and the
    page's default is a truthy value that is not a string, on which
    [timeStr.split] is not a function. *)
Theorem setupNotifications_raises_only_for_a_default_that_is_no_string h :
  (In TypeError (setupNotifications h) <->
   hasNotification h = true /\ permission h = VString "granted" /\
   ToBoolean (Storage.getItem (localStorage h) "notification_time") = false /\
   ToBoolean (DEFAULT_NOTIFICATION_TIME h) = true /\
   forall s, DEFAULT_NOTIFICATION_TIME h <> VString s) /\
  (setupNotifications h = [] \/
   setupNotifications h = [RequestPermission] \/
   setupNotifications h = [RequestPermission; TypeError] \/
   exists delay, setupNotifications h = [RequestPermission; SetTimeout delay]).
Proof.
  unfold setupNotifications.
  destruct (hasNotification h) eqn:N; cbn [negb].
  2: { split; [|now left]. split; [intros [] | intros [H _]; discriminate H]. }
  destruct (strict_equal (permission h) (VString "granted")) eqn:P; cbn [negb].
  2: { split; [|right; now left].
       split.
       - intros [H | []]. discriminate H.
       - intros [_ [G _]]. apply strict_equal_string in G. congruence. }
  apply strict_equal_string in P.
  set (stored := Storage.getItem (localStorage h) "notification_time").
  set (default := DEFAULT_NOTIFICATION_TIME h).
  unfold scheduleNotificationAt, arm.
  destruct (ToBoolean stored) eqn:S.
  - rewrite (resolveTime_truthy stored default S).
    destruct (getItem_null_or_string (localStorage h) "notification_time")
      as [E | [s E]]; fold stored in E; rewrite E in *; [discriminate S|].
    split; [|right; right; right; eauto].
    split.
    + intros [H | [H | []]]; discriminate H.
    + intros [_ [_ [F _]]]. discriminate F.
  - rewrite (resolveTime_falsy stored default S).
    destruct (ToBoolean default) eqn:D.
    + destruct default as [| | b | n | s] eqn:Ed; try discriminate D.
      * split; [|right; right; left; reflexivity].
        split; [|intros _; right; left; reflexivity].
        intros _. repeat split; try assumption. intros s; discriminate.
      * split; [|right; right; left; reflexivity].
        split; [|intros _; right; left; reflexivity].
        intros _. repeat split; try assumption. intros s; discriminate.
      * split; [|right; right; right; eauto].
        split.
        -- intros [H | [H | []]]; discriminate H.
        -- intros [_ [_ [_ [_ F]]]]. exfalso. apply (F s). reflexivity.
    + split; [|right; right; right; eauto].
      split.
      * intros [H | [H | []]]; discriminate H.
      * intros [_ [_ [_ [F _]]]]. discriminate F.
Qed.

Lemma setupNotifications_raises_only_for_a_default_that_is_no_string_witness :
  In TypeError (setupNotifications hostWithNumberDefault) /\
  ~ In TypeError (setupNotifications (hostAnswering (VString "granted"))).
Proof.
  split.
  - apply (proj2 (proj1
      (setupNotifications_raises_only_for_a_default_that_is_no_string
         hostWithNumberDefault))).
    repeat split. intros s. discriminate.
  - intros H.
    apply (proj1 (proj1
      (setupNotifications_raises_only_for_a_default_that_is_no_string
         (hostAnswering (VString "granted"))))) in H.
    destruct H as [_ [_ [F _]]]. discriminate F.
Defined.

(** X8.  On the settings page the [change] listener is registered, and what
    it stores is what the next page load reads: the value under
    ['notification_time'], every other key untouched.  With the permission
    granted, the next load arms the timer with the stored value, whatever the
    default, unless the value is the empty string (the input was cleared),
    which gives the time resolved without a persisted value. *)
Theorem time_chosen_in_settings_is_scheduled_at_the_next_load settings h0 :
  getElementById settings "nt" <> None ->
  exists listener,
    change (snd (onDOMContentLoaded h0 settings)) = Some listener /\
    forall st value,
      Storage.getItem (listener st value) "notification_time" = VString value /\
      (forall key, key <> "notification_time"%string ->
         Storage.getItem (listener st value) key = Storage.getItem st key) /\
      forall h document,
        hasNotification h = true -> permission h = VString "granted" ->
        localStorage h = listener st value ->
        (value <> EmptyString ->
         fst (onDOMContentLoaded h document)
         = [RequestPermission;
            SetTimeout
              (timeout (schedule (LocalTZA h) value (fst (clock h)) (snd (clock h))))]) /\
        (value = EmptyString ->
         fst (onDOMContentLoaded h document)
         = RequestPermission ::
           scheduleNotificationAt (LocalTZA h)
             (resolveTime VNull (DEFAULT_NOTIFICATION_TIME h)) (clock h)).
Proof.
  intros Hnt. exists onTimeChange. split.
  - unfold onDOMContentLoaded. cbn [snd change].
    destruct (getElementById settings "nt"); [reflexivity | contradiction].
  - intros st value. unfold onTimeChange.
    split; [apply getItem_setItem|].
    split; [intros key K; now apply getItem_setItem_other|].
    intros h document N P L. unfold onDOMContentLoaded. cbn [fst].
    rewrite (setupNotifications_granted h N P), L, getItem_setItem.
    split.
    + intros V. rewrite (resolveTime_truthy _ _ (ToBoolean_string value V)). reflexivity.
    + intros ->. reflexivity.
Qed.

Lemma time_chosen_in_settings_is_scheduled_at_the_next_load_witness :
  getElementById settingsPage "nt" <> None /\
  exists listener,
    change (snd (onDOMContentLoaded (hostAnswering (VString "denied")) settingsPage))
      = Some listener /\
    forall st value,
      Storage.getItem (listener st value) "notification_time" = VString value /\
      (forall key, key <> "notification_time"%string ->
         Storage.getItem (listener st value) key = Storage.getItem st key) /\
      forall h document,
        hasNotification h = true -> permission h = VString "granted" ->
        localStorage h = listener st value ->
        (value <> EmptyString ->
         fst (onDOMContentLoaded h document)
         = [RequestPermission;
            SetTimeout
              (timeout (schedule (LocalTZA h) value (fst (clock h)) (snd (clock h))))]) /\
        (value = EmptyString ->
         fst (onDOMContentLoaded h document)
         = RequestPermission ::
           scheduleNotificationAt (LocalTZA h)
             (resolveTime VNull (DEFAULT_NOTIFICATION_TIME h)) (clock h)).
Proof.
  assert (H : getElementById settingsPage "nt" <> None) by discriminate.
  split; [exact H|].
  exact (time_chosen_in_settings_is_scheduled_at_the_next_load settingsPage
           (hostAnswering (VString "denied")) H).
Defined.

Lemma timeString_not_empty h m : timeString h m <> EmptyString.
Proof. unfold timeString, twoDigits. discriminate. Qed.

(** X16.  With the capability, the permission granted and a valid time
    ["HH:MM"] persisted, [setupNotifications] asks for the permission and arms
    exactly one timer, with a delay of more than 0 and at most 86 400 000 ms,
    well inside what [setTimeout] can hold.  The zone is calm and the two
    clock readings are on one local day. *)
Theorem granted_setup_arms_one_timer_within_a_day host off h m :
  hasNotification host = true -> permission host = VString "granted" ->
  Storage.getItem (localStorage host) "notification_time" = VString (timeString h m) ->
  valid h m ->
  calm (LocalTZA host) off (fst (clock host)) (snd (clock host)) ->
  inRange (snd (clock host)) ->
  Day (LocalTime (LocalTZA host) (snd (clock host)))
    = Day (LocalTime (LocalTZA host) (fst (clock host))) ->
  exists d,
    setupNotifications host = [RequestPermission; SetTimeout (Num d)] /\
    0 < d <= msPerDay /\ d < 2 ^ 31.
Proof.
  intros N P S V Z R D.
  destruct (SchedulerMore.timeout_within_a_day (LocalTZA host) off h m _ _ Z R V D)
    as [d [E B]].
  exists d. split; [|split; [exact B | revert B; unfold msPerDay; lia]].
  rewrite (setupNotifications_granted host N P), S.
  rewrite (resolveTime_truthy _ _ (ToBoolean_string _ (timeString_not_empty h m))).
  unfold scheduleNotificationAt, arm. now rewrite E.
Qed.

Lemma granted_setup_arms_one_timer_within_a_day_witness :
  (hasNotification (hostAnswering (VString "granted")) = true /\
   Storage.getItem (localStorage (hostAnswering (VString "granted")))
     "notification_time" = VString (timeString 7 15) /\
   valid 7 15) /\
  exists d,
    setupNotifications (hostAnswering (VString "granted"))
      = [RequestPermission; SetTimeout (Num d)] /\
    0 < d <= msPerDay /\ d < 2 ^ 31.
Proof.
  assert (V : valid 7 15) by (unfold valid; lia).
  assert (Z1 : calm CET 3600000 at063015 at063015).
  { split; [unfold msPerDay; lia | reflexivity]. }
  assert (R1 : inRange at063015) by (vm_compute; discriminate).
  split; [exact (conj (eq_refl _) (conj (eq_refl _) V))|].
  exact (granted_setup_arms_one_timer_within_a_day
           (hostAnswering (VString "granted")) 3600000 7 15
           (eq_refl _) (eq_refl _) (eq_refl _) V Z1 R1 (eq_refl _)).
Defined.

End NotificationsMore.

(** ** The share action on any document and browser *)

Module ShareMore.
Import JsString Dom ShareButton TraceVocabulary MoreVocabulary Samples MoreSamples.
Import TextVocabulary.
Import StringFacts ShareSpec.
Local Open Scope string_scope.

Lemma querySelector_matches root selector n :
  querySelector root selector = Some n -> matches selector n = true.
Proof. unfold querySelector. intros H. now apply find_some in H. Qed.

Lemma querySelector_self selector n :
  matches selector n = true -> querySelector n selector = Some n.
Proof.
  intros H. unfold querySelector.
  destruct n; cbn [inclusiveDescendants find]; now rewrite H.
Qed.

(** X9.  The share text is read from the first element of the class
    [outfit-list] in tree order and from nothing else: it is the text that
    container gives on its own, and two documents with the same first
    container give the same text, whatever else they hold, further
    containers included. *)
Theorem shareText_reads_the_first_container_only document list :
  querySelector document ".outfit-list" = Some list ->
  shareText document = shareText list /\
  forall other,
    querySelector other ".outfit-list" = Some list ->
    shareText other = shareText document.
Proof.
  intros H.
  assert (S : forall d, querySelector d ".outfit-list" = Some list ->
                        shareText d = shareText list).
  { intros d Hd. pose proof (querySelector_matches _ _ _ Hd) as M.
    rewrite (shareText_with_list d list Hd).
    now rewrite (shareText_with_list list list (querySelector_self _ _ M)). }
  split; [exact (S document H)|].
  intros other Ho. now rewrite (S other Ho), (S document H).
Qed.

Lemma shareText_reads_the_first_container_only_witness :
  querySelector
    (Element "body" "" []
       [outfitList ["Blue jeans"; "White tee"]; outfitList ["Red scarf"]])
    ".outfit-list" = Some (outfitList ["Blue jeans"; "White tee"]) /\
  shareText
    (Element "body" "" []
       [outfitList ["Blue jeans"; "White tee"]; outfitList ["Red scarf"]])
  = shareText (outfitList ["Blue jeans"; "White tee"]).
Proof.
  split; [reflexivity|].
  exact (proj1 (shareText_reads_the_first_container_only
                  (Element "body" "" []
                     [outfitList ["Blue jeans"; "White tee"]; outfitList ["Red scarf"]])
                  (outfitList ["Blue jeans"; "White tee"]) (eq_refl _))).
Defined.

Lemma shareText_lines document :
  exists items,
    shareText document
    = String.append header (joinLines (map (fun li => trim (textContent li)) items)) /\
    items = match querySelector document ".outfit-list" with
            | Some list => querySelectorAll list "li"
            | None => []
            end.
Proof.
  destruct (querySelector document ".outfit-list") as [list|] eqn:Q.
  - exists (querySelectorAll list "li").
    split; [now apply shareText_with_list | reflexivity].
  - exists []. split; [|reflexivity]. unfold shareText. rewrite Q. cbn [map joinLines].
    now rewrite append_empty_r.
Qed.

Lemma trimStart_blank s : blank s = true -> trimStart s = EmptyString.
Proof.
  induction s as [| c r IH]; [reflexivity|].
  cbn [blank trimStart]. intros H. apply andb_true_iff in H as [W B].
  rewrite W. exact (IH B).
Qed.

Lemma trim_blank s : blank s = true -> trim s = EmptyString.
Proof. intros H. unfold trim. now rewrite (trimStart_blank s H). Qed.

Lemma trim_starts_clean s : startsWithSpace (trim s) = false.
Proof.
  unfold trim. pose proof (trimStart_clean s) as C.
  destruct (trimStart s) as [| c r]; [reflexivity|].
  destruct (trimEnd_head c r C) as [r' E]. rewrite E. exact C.
Qed.

Lemma trimEnd_ends_clean s : endsWithSpace (trimEnd s) = false.
Proof.
  induction s as [| c r IH]; [reflexivity|].
  cbn [trimEnd]. destruct (trimEnd r) as [| c' r'] eqn:E.
  - destruct (isWhiteSpace c) eqn:W; [reflexivity | exact W].
  - exact IH.
Qed.

Lemma trim_ends_clean s : endsWithSpace (trim s) = false.
Proof. apply trimEnd_ends_clean. Qed.

(** X10.  For every document the share text is the header followed, for each
    [li] under the container in tree order (none without a container), by
    the trimmed text of that item and a newline.  No item is left out: an
    item of white space only gives the empty entry, just the newline.  No
    entry starts or ends with white space.  (An entry can hold newlines of its
    own, so it is not always one line of the text.) *)
Theorem shareText_is_header_and_trimmed_entries document :
  shareText document
  = String.append header
      (joinLines
         (map (fun li => trim (textContent li))
            match querySelector document ".outfit-list" with
            | Some list => querySelectorAll list "li"
            | None => []
            end)) /\
  forall li,
    In li match querySelector document ".outfit-list" with
          | Some list => querySelectorAll list "li"
          | None => []
          end ->
    startsWithSpace (trim (textContent li)) = false /\
    endsWithSpace (trim (textContent li)) = false /\
    (blank (textContent li) = true -> trim (textContent li) = EmptyString).
Proof.
  split.
  - destruct (shareText_lines document) as [items [E ->]]. exact E.
  - intros li _. split; [apply trim_starts_clean|]. split; [apply trim_ends_clean|].
    apply trim_blank.
Qed.

Lemma shareText_is_header_and_trimmed_entries_witness :
  (In (listItem "   ") (querySelectorAll (outfitList ["  Blue jeans "; "   "]) "li") /\
   blank (textContent (listItem "   ")) = true) /\
  shareText (outfitList ["  Blue jeans "; "   "])
  = String.append header
      (joinLines
         (map (fun li => trim (textContent li))
            (querySelectorAll (outfitList ["  Blue jeans "; "   "]) "li"))) /\
  trim (textContent (listItem "   ")) = EmptyString.
Proof.
  assert (I : In (listItem "   ")
                 (querySelectorAll (outfitList ["  Blue jeans "; "   "]) "li")).
  { cbn. right. left. reflexivity. }
  assert (B : blank (textContent (listItem "   ")) = true) by reflexivity.
  split; [exact (conj I B)|]. split.
  - exact (proj1 (shareText_is_header_and_trimmed_entries
                    (outfitList ["  Blue jeans "; "   "]))).
  - exact (proj2 (proj2 (proj2 (shareText_is_header_and_trimmed_entries
                                  (outfitList ["  Blue jeans "; "   "]))
                           (listItem "   ") I)) B).
Defined.

Example shareText_blank_item :
  shareText (outfitList ["  Blue jeans "; "   "])
  = String.append header
      (String.append "Blue jeans" (String.append newline newline)).
Proof. reflexivity. Qed.

(** An entry with a newline inside spans two lines of the text. *)
Example shareText_entry_of_two_lines :
  shareText (outfitList [String.append "Blue" (String.append newline "  jeans")])
  = String.append header
      (String.append "Blue"
         (String.append newline (String.append "  jeans" newline))).
Proof. reflexivity. Qed.

Lemma shareText_not_the_confirmation document :
  shareText document <> "Outfit details copied to clipboard!".
Proof.
  destruct (shareText_lines document) as [items [E _]]. rewrite E. discriminate.
Qed.

(** X11.  A click hands the share text to exactly one method: one effect of
    the trace carries it, be it the native share, the clipboard write or the
    [alert].  The text itself is shown in an [alert] exactly when the browser
    has neither native share nor clipboard. *)
Theorem click_hands_the_text_to_one_method document navigator href :
  List.length (filter (carries (shareText document)) (onClick document navigator href))
  = 1%nat /\
  (In (Alert (shareText document)) (onClick document navigator href) <->
   share navigator = None /\ clipboard navigator = None).
Proof.
  pose proof (shareText_not_the_confirmation document) as N.
  apply String.eqb_neq in N. rewrite String.eqb_sym in N.
  unfold onClick, deliver. set (text := shareText document) in *.
  destruct (share navigator) as [invoke|].
  - split.
    + cbn [filter carries]. rewrite String.eqb_refl.
      destruct (invoke "Today's Outfit" text href); reflexivity.
    + split.
      * intros [H | H]; [discriminate H|].
        destruct (invoke "Today's Outfit" text href); [destruct H|].
        destruct H as [H | []]. discriminate H.
      * intros [H _]. discriminate H.
  - destruct (clipboard navigator) as [writeText|].
    + split.
      * cbn [filter carries]. rewrite String.eqb_refl.
        destruct (writeText text); cbn [filter carries]; [now rewrite N | reflexivity].
      * split.
        -- intros [H | H]; [discriminate H|].
           destruct (writeText text); destruct H as [H | []]; [|discriminate H].
           injection H as H. apply String.eqb_neq in N. contradiction.
        -- intros [_ H]. discriminate H.
    + split.
      * cbn [filter carries]. now rewrite String.eqb_refl.
      * split; [intros _; split; reflexivity | intros _; now left].
Qed.

Lemma click_hands_the_text_to_one_method_witness :
  List.length
    (filter (carries (shareText page))
       (onClick page (clipboardOnly Fulfilled) "https://closet.example/")) = 1%nat /\
  ~ In (Alert (shareText page))
      (onClick page (clipboardOnly Fulfilled) "https://closet.example/").
Proof.
  split.
  - exact (proj1 (click_hands_the_text_to_one_method page (clipboardOnly Fulfilled)
                    "https://closet.example/")).
  - intros H.
    apply (proj1 (proj2 (click_hands_the_text_to_one_method page
                           (clipboardOnly Fulfilled) "https://closet.example/"))) in H.
    destruct H as [_ C]. discriminate C.
Defined.

(** X12.  Only a failed native share is logged.  An entry of [console.error]
    in the trace of a delivery comes from a rejected [navigator.share], with
    the message ['Share failed'] and the reason of the rejection.  A rejected
    clipboard write is neither logged nor followed by an [alert]: the
    rejection stays unhandled; a fulfilled one is followed by the
    confirmation. *)
Theorem only_a_failed_native_share_is_logged navigator href text :
  (forall message reason,
     In (ConsoleError message reason) (deliver navigator href text) ->
     exists invoke,
       share navigator = Some invoke /\
       invoke "Today's Outfit" text href = Rejected reason /\
       message = "Share failed") /\
  (forall writeText reason,
     share navigator = None -> clipboard navigator = Some writeText ->
     writeText text = Rejected reason ->
     deliver navigator href text = [WriteText text; UnhandledRejection reason]) /\
  (forall writeText,
     share navigator = None -> clipboard navigator = Some writeText ->
     writeText text = Fulfilled ->
     deliver navigator href text
     = [WriteText text; Alert "Outfit details copied to clipboard!"]).
Proof.
  split; [|split].
  - intros message reason. unfold deliver.
    destruct (share navigator) as [invoke|].
    + destruct (invoke "Today's Outfit" text href) eqn:R.
      * intros [H | []]. discriminate H.
      * intros [H | [H | []]]; [discriminate H|]. injection H as <- <-. eauto.
    + destruct (clipboard navigator) as [writeText|].
      * destruct (writeText text); intros [H | [H | []]]; discriminate H.
      * intros [H | []]. discriminate H.
  - intros writeText reason S C R. unfold deliver. now rewrite S, C, R.
  - intros writeText S C R. unfold deliver. now rewrite S, C, R.
Qed.

Lemma only_a_failed_native_share_is_logged_witness :
  deliver (clipboardOnly (Rejected "NotAllowedError")) "https://closet.example/"
    (shareText page)
  = [WriteText (shareText page); UnhandledRejection "NotAllowedError"] /\
  deliver (clipboardOnly Fulfilled) "https://closet.example/" (shareText page)
  = [WriteText (shareText page); Alert "Outfit details copied to clipboard!"].
Proof.
  split.
  - exact (proj1 (proj2 (only_a_failed_native_share_is_logged
                           (clipboardOnly (Rejected "NotAllowedError"))
                           "https://closet.example/" (shareText page)))
             (fun _ => Rejected "NotAllowedError") "NotAllowedError"
             (eq_refl _) (eq_refl _) (eq_refl _)).
  - exact (proj2 (proj2 (only_a_failed_native_share_is_logged
                           (clipboardOnly Fulfilled)
                           "https://closet.example/" (shareText page)))
             (fun _ => Fulfilled) (eq_refl _) (eq_refl _) (eq_refl _)).
Defined.

(** *** Items inside items *)

Lemma descendants_inclusive n y : In y (descendants n) -> In y (inclusiveDescendants n).
Proof. destruct n; cbn [descendants inclusiveDescendants]; [intros [] | now right]. Qed.

Lemma inclusiveDescendants_transitive z :
  forall x y, In x (inclusiveDescendants z) -> In y (inclusiveDescendants x) ->
              In y (inclusiveDescendants z).
Proof.
  induction z as [data | name id classes children IH] using Node_induction;
    intros x y Hx Hy.
  - destruct Hx as [<- | []]. exact Hy.
  - cbn [inclusiveDescendants] in Hx. destruct Hx as [<- | Hx]; [exact Hy|].
    cbn [inclusiveDescendants]. right.
    apply in_flat_map in Hx as [c [Hc Hx]]. apply in_flat_map.
    exists c. split; [exact Hc|].
    rewrite Forall_forall in IH. exact (IH c Hc x y Hx Hy).
Qed.

Lemma descendants_transitive z x y :
  In x (descendants z) -> In y (descendants x) -> In y (descendants z).
Proof.
  intros Hx Hy. destruct z as [data | name id classes children]; [destruct Hx|].
  cbn [descendants] in *. apply in_flat_map in Hx as [c [Hc Hx]].
  apply in_flat_map. exists c. split; [exact Hc|].
  apply (inclusiveDescendants_transitive c x y Hx). now apply descendants_inclusive.
Qed.

Lemma textContent_children children c :
  In c children ->
  exists a b,
    fold_right (fun c acc => String.append (textContent c) acc) EmptyString children
    = String.append a (String.append (textContent c) b).
Proof.
  induction children as [| d rest IH]; [intros []|].
  intros [-> | H]; cbn [fold_right].
  - exists EmptyString. eexists. reflexivity.
  - destruct (IH H) as [a [b E]]. rewrite E.
    exists (String.append (textContent d) a), b. now rewrite append_assoc.
Qed.

(** The text of a node holds the text of each node below it. *)
Lemma textContent_inclusive x :
  forall y, In y (inclusiveDescendants x) ->
  exists a b, textContent x = String.append a (String.append (textContent y) b).
Proof.
  induction x as [data | name id classes children IH] using Node_induction; intros y Hy.
  - destruct Hy as [<- | []]. exists EmptyString, EmptyString. cbn.
    now rewrite append_empty_r.
  - cbn [inclusiveDescendants] in Hy. destruct Hy as [<- | Hy].
    + exists EmptyString, EmptyString. cbn [append]. now rewrite append_empty_r.
    + apply in_flat_map in Hy as [c [Hc Hy]].
      rewrite Forall_forall in IH. destruct (IH c Hc y Hy) as [a [b E]].
      destruct (textContent_children children c Hc) as [a' [b' E']].
      cbn [textContent]. rewrite E', E.
      exists (String.append a' a), (String.append b b').
      now rewrite !append_assoc.
Qed.

(** The descendants of a node below [z] stand together, in tree order, among
    the descendants of [z]. *)
Lemma flat_map_block (f : Node -> list Node) children c :
  In c children ->
  exists pre post, flat_map f children = (pre ++ f c ++ post)%list.
Proof.
  intros H. apply in_split in H as [c1 [c2 ->]].
  exists (flat_map f c1), (flat_map f c2).
  rewrite flat_map_app. cbn [flat_map]. reflexivity.
Qed.

Lemma inclusiveDescendants_block z :
  forall x, In x (inclusiveDescendants z) ->
  exists pre post, inclusiveDescendants z = (pre ++ inclusiveDescendants x ++ post)%list.
Proof.
  induction z as [data | name id classes children IH] using Node_induction;
    intros x Hx.
  - destruct Hx as [<- | []]. exists [], []. reflexivity.
  - cbn [inclusiveDescendants] in Hx. destruct Hx as [<- | Hx].
    + exists [], []. cbn [app]. now rewrite app_nil_r.
    + apply in_flat_map in Hx as [c [Hc Hx]].
      rewrite Forall_forall in IH. destruct (IH c Hc x Hx) as [p [q E]].
      destruct (flat_map_block inclusiveDescendants children c Hc) as [pre [post F]].
      exists (Element name id classes children :: pre ++ p)%list, (q ++ post)%list.
      cbn [inclusiveDescendants]. rewrite F, E. cbn [app].
      now rewrite <- !app_assoc.
Qed.

Lemma descendants_block z x :
  In x (descendants z) ->
  exists pre post, descendants z = (pre ++ inclusiveDescendants x ++ post)%list.
Proof.
  intros Hx. destruct z as [data | name id classes children]; [destruct Hx|].
  cbn [descendants] in *. apply in_flat_map in Hx as [c [Hc Hx]].
  destruct (inclusiveDescendants_block c x Hx) as [p [q E]].
  destruct (flat_map_block inclusiveDescendants children c Hc) as [pre [post F]].
  exists (pre ++ p)%list, (q ++ post)%list. rewrite F, E. now rewrite <- !app_assoc.
Qed.

Lemma inclusiveDescendants_cons x : inclusiveDescendants x = x :: descendants x.
Proof. destruct x; reflexivity. Qed.

(** X14.  [querySelectorAll] goes to any depth.  When an item of the list
    holds an item of its own, the share text has an entry for the outer item
    and, further on, an entry for the inner item, and the text of the outer
    item contains the text of the inner one: the words of the inner item come
    twice. *)
Theorem nested_items_are_listed_too document list outer inner :
  querySelector document ".outfit-list" = Some list ->
  In outer (querySelectorAll list "li") ->
  In inner (querySelectorAll outer "li") ->
  (exists first between last,
     shareText document
     = String.append header
         (joinLines
            (first ++ trim (textContent outer) :: between
                   ++ trim (textContent inner) :: last)%list)) /\
  exists a b,
    textContent outer = String.append a (String.append (textContent inner) b).
Proof.
  intros Q Ho Hi. split.
  - rewrite (shareText_with_list document list Q).
    unfold querySelectorAll in *.
    apply filter_In in Ho as [Ho Mo]. apply filter_In in Hi as [Hi Mi].
    destruct (descendants_block list outer Ho) as [pre [post E]].
    apply in_split in Hi as [m1 [m2 F]].
    rewrite E, inclusiveDescendants_cons, F.
    exists (map (fun li => trim (textContent li)) (filter (matches "li") pre)),
           (map (fun li => trim (textContent li)) (filter (matches "li") m1)),
           (map (fun li => trim (textContent li)) (filter (matches "li") (m2 ++ post)%list)).
    do 2 f_equal.
    rewrite filter_app. cbn [app filter]. rewrite Mo.
    rewrite <- app_assoc, filter_app. cbn [app filter]. rewrite Mi.
    rewrite !map_app. cbn [map]. rewrite !map_app. cbn [map]. reflexivity.
  - unfold querySelectorAll in Hi. apply filter_In in Hi as [Hi _].
    apply textContent_inclusive. now apply descendants_inclusive.
Qed.

Example shareText_nestedList :
  shareText (nestedList "Suit: " "blazer")
  = String.append header
      (String.append "Suit: blazer"
         (String.append newline (String.append "blazer" newline))).
Proof. reflexivity. Qed.

Lemma nested_items_are_listed_too_witness :
  (querySelector (nestedList "Suit: " "blazer") ".outfit-list"
     = Some (nestedList "Suit: " "blazer") /\
   In (Element "li" "" []
         [Text "Suit: "; Element "ul" "" [] [Element "li" "" [] [Text "blazer"]]])
      (querySelectorAll (nestedList "Suit: " "blazer") "li") /\
   In (Element "li" "" [] [Text "blazer"])
      (querySelectorAll
         (Element "li" "" []
            [Text "Suit: "; Element "ul" "" [] [Element "li" "" [] [Text "blazer"]]])
         "li")) /\
  exists first between last,
    shareText (nestedList "Suit: " "blazer")
    = String.append header
        (joinLines
           (first
            ++ trim (textContent
                       (Element "li" "" []
                          [Text "Suit: ";
                           Element "ul" "" [] [Element "li" "" [] [Text "blazer"]]]))
               :: between
            ++ trim (textContent (Element "li" "" [] [Text "blazer"])) :: last)%list).
Proof.
  assert (Q : querySelector (nestedList "Suit: " "blazer") ".outfit-list"
              = Some (nestedList "Suit: " "blazer")) by reflexivity.
  assert (O : In (Element "li" "" []
                    [Text "Suit: ";
                     Element "ul" "" [] [Element "li" "" [] [Text "blazer"]]])
                 (querySelectorAll (nestedList "Suit: " "blazer") "li")).
  { cbn. left. reflexivity. }
  assert (I : In (Element "li" "" [] [Text "blazer"])
                 (querySelectorAll
                    (Element "li" "" []
                       [Text "Suit: ";
                        Element "ul" "" [] [Element "li" "" [] [Text "blazer"]]])
                    "li")).
  { cbn. left. reflexivity. }
  split; [exact (conj Q (conj O I))|].
  exact (proj1 (nested_items_are_listed_too (nestedList "Suit: " "blazer")
                  (nestedList "Suit: " "blazer") _ _ Q O I)).
Defined.

End ShareMore.
